(** * Matcher sets of mosdns: [domain_set] and [ip_set]

    A shallow embedding of [plugin/data_provider/domain_set/domain_set.go]
    and [plugin/data_provider/ip_set/ip_set.go]: rule ingestion, the
    remote-file lifecycle, the background refresh loop and the matcher
    group, together with the properties the design document states about
    them.

    Go pointers to matchers are locations of a store ([gmap loc _]); the
    file system and the network are an explicit world that every effectful
    function threads; Go [error] values are a small inductive type that
    keeps the wrapping structure of [fmt.Errorf("...%w", err)]. *)

From Stdlib Require Import String Ascii List NArith ZArith Lia Bool.
From Stdlib Require Import DecimalString Permutation.
From stdpp Require Import base option gmap strings.

Import ListNotations.
Local Open Scope string_scope.

(** ** Go errors *)

(** [errors_New msg] is a leaf error; [fmt_Errorf msg cause] is
    [fmt.Errorf(msg_with_args + "%w", cause)]: the text that precedes the
    verb [%w], with the other verbs already expanded, and the wrapped
    cause. *)
Inductive error : Type :=
| errors_New (msg : string)
| fmt_Errorf (msg : string) (cause : error).

(** [err.Error()] *)
Fixpoint Error (e : error) : string :=
  match e with
  | errors_New msg => msg
  | fmt_Errorf msg cause => msg ++ Error cause
  end.

(** [errors.Unwrap(err)] *)
Definition Unwrap (e : error) : option error :=
  match e with
  | errors_New _ => None
  | fmt_Errorf _ cause => Some cause
  end.

(** The verb [%d] of [fmt] on a non-negative [int]. *)
Definition fmt_d (i : nat) : string := NilEmpty.string_of_uint (Nat.to_uint i).

(** A call that returns [(T, error)]. *)
Inductive result (T : Type) : Type :=
| Ok (v : T)
| Err (e : error).
Arguments Ok {T} v.
Arguments Err {T} e.

(** ** Strings as byte sequences *)

Fixpoint bytes (s : string) : list ascii :=
  match s with
  | EmptyString => []
  | String c s' => c :: bytes s'
  end.

(** [strings.ContainsRune(s, c)] for an ASCII rune. *)
Fixpoint ContainsRune (s : string) (c : ascii) : bool :=
  match s with
  | EmptyString => false
  | String c' s' => if Ascii.eqb c' c then true else ContainsRune s' c
  end.

(** [strings.LastIndexByte(s, c)]; [None] is Go's [-1]. *)
Fixpoint LastIndexByte (s : string) (c : ascii) : option nat :=
  match s with
  | EmptyString => None
  | String c' s' =>
      match LastIndexByte s' c with
      | Some i => Some (S i)
      | None => if Ascii.eqb c' c then Some 0%nat else None
      end
  end.

(** The slice expressions [s[:i]] and [s[i:]]. *)
Definition slice_to (s : string) (i : nat) : string := substring 0 i s.
Definition slice_from (s : string) (i : nat) : string :=
  substring i (String.length s - i) s.

(** [strings.Contains(s, substr)] *)
Fixpoint strings_Contains (s substr : string) : bool :=
  match s with
  | EmptyString => String.eqb substr ""
  | String _ s' => (String.prefix substr s || strings_Contains s' substr)%bool
  end.

Definition is_digit (c : ascii) : bool :=
  ((48 <=? nat_of_ascii c) && (nat_of_ascii c <=? 57))%nat.

Definition digit_val (c : ascii) : N := N.of_nat (nat_of_ascii c - 48).

(** ** [net/netip]

    The address primitives belong to Go's standard library, not to the
    repository.  The design document fixes their contract: parse an
    address or a CIDR prefix, a bare address having a full-length (host)
    prefix.  IPv4 text is dotted decimal, the way [net/netip] documents
    it; the parser of IPv6 text is a parameter. *)
Module netip.

(** Modelled from the spec: [netip.Addr], missing from the sources.  An
    IPv4 address is its 32-bit value, an IPv6 address its 128-bit value
    and its zone. *)
Inductive Addr : Type :=
| Addr4 (a : N)
| Addr6 (a : N) (zone : string).

(** Modelled from the spec: [netip.Prefix], missing from the sources: an
    address and a number of leading bits. *)
Record Prefix : Type := PrefixFrom { Addr_of : Addr; Bits : N }.

(** Modelled from the spec: [ip.Is4()]. *)
Definition Is4 (ip : Addr) : bool :=
  match ip with Addr4 _ => true | Addr6 _ _ => false end.

(** Modelled from the spec: [ip.Is6()]. *)
Definition Is6 (ip : Addr) : bool := negb (Is4 ip).

(** Modelled from the spec: whether an IPv6 address carries a zone. *)
Definition hasZone (ip : Addr) : bool :=
  match ip with
  | Addr4 _ => false
  | Addr6 _ z => negb (String.eqb z "")
  end.

(** Modelled from the spec: [ip.BitLen()], the full length of a host
    prefix. *)
Definition BitLen (ip : Addr) : Z :=
  match ip with Addr4 _ => 32 | Addr6 _ _ => 128 end.

(** Modelled from the spec: [netip.AddrFrom4(fields)]. *)
Definition AddrFrom4 (a b c d : N) : Addr :=
  Addr4 (N.lor (N.shiftl a 24) (N.lor (N.shiftl b 16) (N.lor (N.shiftl c 8) d))).

(** The parser of IPv6 text of [net/netip], a parameter. *)
Class IPv6Parser : Type := parseIPv6 : string -> result Addr.

(** Modelled from the spec: the scanning loop of the IPv4 parser of
    [net/netip], missing from the sources: four decimal fields of at
    most 255 without leading zero, separated by single dots.  [i] is the
    index of the head of [s], [prev] the byte before it. *)
Fixpoint parseIPv4_loop (s : list ascii) (i len : nat) (prev : ascii)
    (fields : list N) (val : N) (digLen pos : nat) : result (list N * N * nat) :=
  match s with
  | [] => Ok (fields, val, pos)
  | c :: s' =>
      if is_digit c then
        if ((digLen =? 1)%nat && (val =? 0)%N)%bool then
          Err (errors_New "IPv4 field has octet with leading zero")
        else
          let val := (val * 10 + digit_val c)%N in
          if (255 <? val)%N then Err (errors_New "IPv4 field has value >255")
          else parseIPv4_loop s' (S i) len c fields val (S digLen) pos
      else if Ascii.eqb c "." then
        if ((i =? 0)%nat || (i =? len - 1)%nat || Ascii.eqb prev ".")%bool then
          Err (errors_New "IPv4 field must have at least one digit")
        else if (pos =? 3)%nat then Err (errors_New "IPv4 address too long")
        else parseIPv4_loop s' (S i) len c (fields ++ [val]) 0%N 0%nat (S pos)
      else Err (errors_New "unexpected character")
  end.

(** Modelled from the spec: the IPv4 parser of [net/netip]. *)
Definition parseIPv4 (s : string) : result Addr :=
  match parseIPv4_loop (bytes s) 0 (String.length s) Ascii.zero [] 0%N 0%nat 0%nat with
  | Err e => Err e
  | Ok (fields, val, pos) =>
      if (pos <? 3)%nat then Err (errors_New "IPv4 address too short")
      else
        match fields with
        | [a; b; c] => Ok (AddrFrom4 a b c val)
        | _ => Err (errors_New "IPv4 address too long")
        end
  end.

Section Parse.
Context {V6 : IPv6Parser}.

(** Modelled from the spec: [netip.ParseAddr], missing from the
    sources: the first of ['.'], [':'] and ['%'] selects the syntax. *)
Fixpoint ParseAddr_scan (whole : string) (s : list ascii) : result Addr :=
  match s with
  | [] => Err (errors_New "unable to parse IP")
  | c :: s' =>
      if Ascii.eqb c "." then parseIPv4 whole
      else if Ascii.eqb c ":" then parseIPv6 whole
      else if Ascii.eqb c "%" then Err (errors_New "missing IPv6 address")
      else ParseAddr_scan whole s'
  end.

(** Modelled from the spec: [netip.ParseAddr]. *)
Definition ParseAddr (s : string) : result Addr := ParseAddr_scan s (bytes s).

(** Modelled from the spec: the number after the slash of a CIDR prefix,
    decimal digits without sign and without leading zero. *)
Fixpoint atoi_digits (s : list ascii) (acc : N) : option N :=
  match s with
  | [] => Some acc
  | c :: s' => if is_digit c then atoi_digits s' (acc * 10 + digit_val c)%N else None
  end.

(** Modelled from the spec: the check and conversion of the text after
    the slash in [netip.ParsePrefix]. *)
Definition parse_bits (bitsStr : string) : option N :=
  match bytes bitsStr with
  | [] => None
  | c :: rest =>
      if (negb (length rest =? 0)%nat && Ascii.eqb c "0")%bool then None
      else atoi_digits (c :: rest) 0%N
  end.

(** Modelled from the spec: [netip.ParsePrefix], missing from the
    sources: address, slash, length at most 32 or 128; the address is
    kept as written, host bits included. *)
Definition ParsePrefix (s : string) : result Prefix :=
  match LastIndexByte s "/" with
  | None => Err (errors_New "no '/'")
  | Some i =>
      match ParseAddr (slice_to s i) with
      | Err e => Err (errors_New (Error e))
      | Ok ip =>
          if (Is6 ip && hasZone ip)%bool then
            Err (errors_New "IPv6 zones cannot be present in a prefix")
          else
            match parse_bits (slice_from s (S i)) with
            | None => Err (errors_New "bad bits after slash")
            | Some bits =>
                let maxBits := if Is6 ip then 128%N else 32%N in
                if (maxBits <? bits)%N then Err (errors_New "prefix length out of range")
                else Ok (PrefixFrom ip bits)
            end
      end
  end.
End Parse.

(** Modelled from the spec: the address without its zone. *)
Definition withoutZone (ip : Addr) : Addr :=
  match ip with
  | Addr4 a => Addr4 a
  | Addr6 a _ => Addr6 a ""
  end.

(** Modelled from the spec: keep the top [b] of the [w] bits of [a]. *)
Definition mask_top (w b a : N) : N := N.shiftl (N.shiftr a (w - b)) (w - b).

(** Modelled from the spec: [ip.Prefix(b)], missing from the sources:
    the prefix of length [b] that contains [ip], host bits cleared and
    zone dropped. *)
Definition Addr_Prefix (ip : Addr) (b : Z) : result Prefix :=
  if (b <? 0)%Z then Err (errors_New "negative Prefix bits")
  else
    match ip with
    | Addr4 a =>
        if (32 <? b)%Z then Err (errors_New "prefix length too large for IPv4")
        else Ok (PrefixFrom (Addr4 (mask_top 32 (Z.to_N b) a)) (Z.to_N b))
    | Addr6 a z =>
        if (128 <? b)%Z then Err (errors_New "prefix length too large for IPv6")
        else Ok (PrefixFrom (Addr6 (mask_top 128 (Z.to_N b) a) "") (Z.to_N b))
    end.

End netip.

(** ** [pkg/matcher/netlist]

    The package is not among the sources.  The design document fixes the
    contract of its list: register a prefix, test a key, report the
    count, and keep a sort invariant that every bulk mutation breaks and
    that has to be restored before a lookup. *)
Module netlist.
Import netip.

(** Modelled from the spec: [netlist.List], missing from the sources: the
    registered prefixes in the order of registration, and whether the
    sort invariant holds. *)
Record List : Type := mkList { e : list Prefix; sorted : bool }.

(** Modelled from the spec: [netlist.NewList()], the empty list. *)
Definition NewList : List := {| e := []; sorted := false |}.

(** Modelled from the spec: the place of an address in the 128-bit
    space, IPv4 as [::ffff:a.b.c.d]. *)
Definition to6 (ip : Addr) : N :=
  match ip with
  | Addr4 a => N.lor (N.shiftl 65535 32) a
  | Addr6 a _ => a
  end.

(** Modelled from the spec: the length of a prefix in the 128-bit
    space. *)
Definition bits6 (p : Prefix) : N :=
  if Is4 (Addr_of p) then (Bits p + 96)%N else Bits p.

(** Modelled from the spec: [l.Append(p)] registers a prefix; a mutation
    breaks the sort invariant. *)
Definition Append (p : Prefix) (l : List) : List :=
  {| e := e l ++ [p]; sorted := false |}.

(** Modelled from the spec: [l.Len()] reports the count. *)
Definition Len (l : List) : nat := length (e l).

(** Modelled from the spec: the order of the sort invariant, by address
    and then by length. *)
Definition prefix_leb (p q : Prefix) : bool :=
  if (to6 (Addr_of p) =? to6 (Addr_of q))%N then (bits6 p <=? bits6 q)%N
  else (to6 (Addr_of p) <? to6 (Addr_of q))%N.

(** Modelled from the spec: insertion into a sorted sequence. *)
Fixpoint insert_sorted (p : Prefix) (l : list Prefix) : list Prefix :=
  match l with
  | [] => [p]
  | q :: l' => if prefix_leb p q then p :: q :: l' else q :: insert_sorted p l'
  end.

(** Modelled from the spec: [l.Sort()] restores the sort invariant. *)
Definition Sort (l : List) : List :=
  {| e := fold_right insert_sorted [] (e l); sorted := true |}.

(** Modelled from the spec: an address is in a prefix when the leading
    bits agree. *)
Definition Prefix_Contains (p : Prefix) (addr : Addr) : bool :=
  (N.shiftr (N.lxor (to6 addr) (to6 (Addr_of p))) (128 - bits6 p) =? 0)%N.

(** Modelled from the spec: [l.Match(addr)] tests a key: some registered
    prefix contains it. *)
Definition Match (l : List) (addr : Addr) : bool :=
  existsb (fun p => Prefix_Contains p addr) (e l).

(** Modelled from the spec: file content is line-oriented.  The lines of
    a text, without their line feeds; a final line feed ends the last
    line. *)
Fixpoint lines_aux (s : string) (cur : string) : list string :=
  match s with
  | EmptyString => if String.eqb cur "" then [] else [cur]
  | String c s' =>
      if Ascii.eqb c "010" then cur :: lines_aux s' ""
      else lines_aux s' (cur ++ String c "")
  end.

(** Modelled from the spec: the lines of a file. *)
Definition lines (s : string) : list string := lines_aux s "".

(** Modelled from the spec: the scanning loop of
    [netlist.LoadFromReader], missing from the sources: every non-blank
    line is handed to the parser of inline expressions; the first bad
    line stops the loop, the lines before it stay registered. *)
Fixpoint LoadFromReader_loop (parse : string -> result Prefix)
    (ls : list string) (lineCounter : nat) (l : List) : List * option error :=
  match ls with
  | [] => (l, None)
  | s :: ls' =>
      let lineCounter := S lineCounter in
      if String.eqb s "" then LoadFromReader_loop parse ls' lineCounter l
      else
        match parse s with
        | Err err =>
            (l, Some (fmt_Errorf ("invalid data at line #" ++ fmt_d lineCounter ++ ": ") err))
        | Ok p => LoadFromReader_loop parse ls' lineCounter (Append p l)
        end
  end.

(** Modelled from the spec: [netlist.LoadFromReader(l, reader)]. *)
Definition LoadFromReader (parse : string -> result Prefix)
    (l : List) (content : string) : List * option error :=
  LoadFromReader_loop parse (lines content) 0 l.

End netlist.


(** ** The file system and the network

    What the operating system and the remote server do is not decided by
    the program: [Env] gives the outcome of every request, [World] is what
    the program changes.  Every system call is logged in [trace], oldest
    first. *)

Inductive File : Type :=
| Regular (content : string)
| Unreadable.

Inductive Event : Type :=
| EvMkdirAll (dir : string)
| EvStat (path : string)
| EvReadFile (path : string)
| EvGet (url : string)
| EvCreate (path : string).

(** The course of one [downloadFile] call. *)
Inductive Download : Type :=
| GetFails (e : error)
| BadStatus (status : string)
| CreateFails (e : error)
| CopyFails (written : string) (e : error)
| Downloaded (body : string).

Record Env : Type := {
  filepath_Dir : string -> string;
  MkdirAll : string -> option error;
  remote : nat -> string -> string -> Download
}.

Record World : Type := {
  files : gmap string File;
  requests : nat;
  trace : list Event
}.

Definition log (ev : Event) (w : World) : World :=
  {| files := files w; requests := requests w; trace := trace w ++ [ev] |}.

Definition write_file (path content : string) (w : World) : World :=
  {| files := <[path := Regular content]> (files w);
     requests := requests w; trace := trace w |}.

(** No file has the empty path. *)
Definition lookup_file (w : World) (path : string) : option File :=
  if String.eqb path "" then None else files w !! path.

(** [os.MkdirAll(dir, 0755)] *)
Definition os_MkdirAll (env : Env) (dir : string) (w : World) : World * option error :=
  (log (EvMkdirAll dir) w, MkdirAll env dir).

(** [_, err := os.Stat(path); os.IsNotExist(err)] *)
Definition os_Stat_IsNotExist (path : string) (w : World) : World * bool :=
  (log (EvStat path) w,
   match lookup_file w path with None => true | Some _ => false end).

(** [os.ReadFile(f)] *)
Definition os_ReadFile (f : string) (w : World) : World * result string :=
  (log (EvReadFile f) w,
   match lookup_file w f with
   | None => Err (errors_New ("open " ++ f ++ ": no such file or directory"))
   | Some Unreadable => Err (errors_New ("read " ++ f ++ ": permission denied"))
   | Some (Regular b) => Ok b
   end).

(** [downloadFile(url, filepath)], the same function in both packages:
    one GET; the local file is created, hence truncated, only after a
    response with status 200, and a copy that fails leaves what was
    written so far. *)
Definition downloadFile (env : Env) (url filepath : string) (w : World)
    : World * option error :=
  let w1 := {| files := files w; requests := S (requests w);
               trace := trace w ++ [EvGet url] |} in
  match remote env (requests w) url filepath with
  | GetFails err => (w1, Some (fmt_Errorf "failed to download file: " err))
  | BadStatus status => (w1, Some (errors_New ("bad status: " ++ status)))
  | CreateFails err =>
      (log (EvCreate filepath) w1, Some (fmt_Errorf "failed to create file: " err))
  | CopyFails written err =>
      (write_file filepath written (log (EvCreate filepath) w1),
       Some (fmt_Errorf "failed to write file: " err))
  | Downloaded body =>
      (write_file filepath body (log (EvCreate filepath) w1), None)
  end.

(** [type RemoteFile struct], the same in both packages. *)
Record RemoteFile : Type := {
  URL : string;
  Path : string;
  Interval : Z
}.

(** A pointer to a matcher is a location of the store. *)
Definition loc : Type := nat.

(** The program state: the world, the matchers behind the pointers, the
    next free location, and the goroutines started by
    [go updateRemoteFile(rf, m)], oldest first. *)
Record State (L : Type) : Type := {
  world : World;
  heap : gmap loc L;
  next : loc;
  spawned : list (RemoteFile * loc)
}.
Arguments world {L} s.
Arguments heap {L} s.
Arguments next {L} s.
Arguments spawned {L} s.

(** ** Package [ip_set] *)
Module ip_set.
Import netip netlist.

Record Args : Type := {
  IPs : list string;
  Sets : list string;
  Files : list string;
  RemoteFiles : list RemoteFile
}.

(** A value of the interface [netlist.Matcher] held by a group: the
    pointer to a list of this program, or the matcher that another
    provider hands out. *)
Inductive Matcher : Type :=
| ListAt (l : loc)
| Provided (m : Addr -> bool).

(** [type IPSet struct { mg []netlist.Matcher }] *)
Record IPSet : Type := { mg : list Matcher }.

Section Loading.
Context {V6 : IPv6Parser}.

Definition parseNetipPrefix (s : string) : result Prefix :=
  if ContainsRune s "/" then ParsePrefix s
  else
    match ParseAddr s with
    | Err err => Err err
    | Ok addr => Addr_Prefix addr (BitLen addr)
    end.

(** The loop of [LoadFromIPs], from index [i] on. *)
Fixpoint LoadFromIPs_loop (i : nat) (ips : list string) (l : List) : List * option error :=
  match ips with
  | [] => (l, None)
  | s :: ips' =>
      match parseNetipPrefix s with
      | Err err => (l, Some (fmt_Errorf ("invalid ip #" ++ fmt_d i ++ " " ++ s ++ ", ") err))
      | Ok p => LoadFromIPs_loop (S i) ips' (Append p l)
      end
  end.

Definition LoadFromIPs (ips : list string) (l : List) : List * option error :=
  LoadFromIPs_loop 0 ips l.

Definition LoadFromFile (f : string) (l : List) (w : World) : World * List * option error :=
  if (0 <? String.length f)%nat then
    let (w, r) := os_ReadFile f w in
    match r with
    | Err err => (w, l, Some err)
    | Ok b =>
        let (l, err) := LoadFromReader parseNetipPrefix l b in
        (w, l, err)
    end
  else (w, l, None).

(** The loop of [LoadFromFiles], from index [i] on. *)
Fixpoint LoadFromFiles_loop (i : nat) (fs : list string) (l : List) (w : World)
    : World * List * option error :=
  match fs with
  | [] => (w, l, None)
  | f :: fs' =>
      let '(w, l, err) := LoadFromFile f l w in
      match err with
      | Some err =>
          (w, l, Some (fmt_Errorf ("failed to load file #" ++ fmt_d i ++ " " ++ f ++ ", ") err))
      | None => LoadFromFiles_loop (S i) fs' l w
      end
  end.

Definition LoadFromFiles (fs : list string) (l : List) (w : World)
    : World * List * option error :=
  LoadFromFiles_loop 0 fs l w.

Definition LoadFromIPsAndFiles (ips fs : list string) (l : List) (w : World)
    : World * List * option error :=
  let (l, err) := LoadFromIPs ips l in
  match err with
  | Some err => (w, l, Some err)
  | None => LoadFromFiles fs l w
  end.

Section Remote.
Variable env : Env.

(** The result of the first [LoadFromFile] is dropped, as in the
    source. *)
Definition LoadFromRemoteFile (rf : RemoteFile) (l : List) (w : World)
    : World * List * option error :=
  let dir := filepath_Dir env (Path rf) in
  let (w, err) :=
    if negb (String.eqb dir "") then os_MkdirAll env dir w else (w, None) in
  match err with
  | Some err => (w, l, Some (fmt_Errorf ("failed to create directory " ++ dir ++ ": ") err))
  | None =>
      let (w, notExist) := os_Stat_IsNotExist (Path rf) w in
      let (w, err) :=
        if notExist then downloadFile env (URL rf) (Path rf) w else (w, None) in
      match err with
      | Some err => (w, l, Some err)
      | None =>
          let '(w, l, _) := LoadFromFile (Path rf) l w in
          let (w, err) := downloadFile env (URL rf) (Path rf) w in
          match err with
          | Some err => (w, l, Some err)
          | None => LoadFromFile (Path rf) l w
          end
      end
  end.

(** One iteration of the loop [for range ticker.C] of
    [updateRemoteFile]: [*l = *newList] overwrites the list behind the
    pointer [l]. *)
Definition updateRemoteFile_tick (rf : RemoteFile) (l : loc) (st : State List)
    : State List :=
  let newList := NewList in
  let (w, err) := downloadFile env (URL rf) (Path rf) (world st) in
  match err with
  | Some _ =>
      {| world := w; heap := heap st; next := next st; spawned := spawned st |}
  | None =>
      let '(w, newList, err) := LoadFromFile (Path rf) newList w in
      match err with
      | Some _ =>
          {| world := w; heap := heap st; next := next st; spawned := spawned st |}
      | None =>
          let newList := Sort newList in
          {| world := w; heap := <[l := newList]> (heap st);
             next := next st; spawned := spawned st |}
      end
  end.

(** The first [n] ticks of [updateRemoteFile(rf, l)]. *)
Fixpoint updateRemoteFile (n : nat) (rf : RemoteFile) (l : loc) (st : State List)
    : State List :=
  match n with
  | O => st
  | S n' => updateRemoteFile n' rf l (updateRemoteFile_tick rf l st)
  end.

(** Ticks of the started goroutines, in the order the scheduler picks
    them: [k] stands for the goroutine [k] of [spawned]. *)
Fixpoint run_ticks (ks : list nat) (st : State List) : State List :=
  match ks with
  | [] => st
  | k :: ks' =>
      match nth_error (spawned st) k with
      | Some (rf, l) => run_ticks ks' (updateRemoteFile_tick rf l st)
      | None => run_ticks ks' st
      end
  end.

(** The loop over [args.RemoteFiles] in [NewIPSet]; [lp] is the pointer
    [l], [l] the list behind it. *)
Fixpoint NewIPSet_remotes (rfs : list RemoteFile) (lp : loc) (l : List) (w : World)
    (sp : list (RemoteFile * loc)) : World * List * list (RemoteFile * loc) * option error :=
  match rfs with
  | [] => (w, l, sp, None)
  | rf :: rfs' =>
      let '(w, l, err) := LoadFromRemoteFile rf l w in
      match err with
      | Some err =>
          (w, l, sp, Some (fmt_Errorf ("failed to load remote file " ++ URL rf ++ ": ") err))
      | None =>
          let sp := if (0 <? Interval rf)%Z then (sp ++ [(rf, lp)])%list else sp in
          NewIPSet_remotes rfs' lp l w sp
      end
  end.

(** [bp.M().GetPlugin(tag).(data_provider.IPMatcherProvider)] followed by
    [GetIPMatcher()]; [None] when the tag is unknown or the plugin is not
    an [IPMatcherProvider]. *)
Variable GetIPMatcher : string -> option Matcher.

(** The loop over [args.Sets] in [NewIPSet]. *)
Fixpoint NewIPSet_sets (tags : list string) (mg : list Matcher) : result (list Matcher) :=
  match tags with
  | [] => Ok mg
  | tag :: tags' =>
      match GetIPMatcher tag with
      | None => Err (errors_New (tag ++ " is not an IPMatcherProvider"))
      | Some m => NewIPSet_sets tags' (mg ++ [m])%list
      end
  end.

Definition NewIPSet (args : Args) (st : State List) : State List * result IPSet :=
  let lp := next st in
  let exit (w : World) (l : List) (sp : list (RemoteFile * loc)) : State List :=
    {| world := w; heap := <[lp := l]> (heap st); next := S lp; spawned := sp |} in
  let '(w, l, err) := LoadFromIPsAndFiles (IPs args) (Files args) NewList (world st) in
  match err with
  | Some err => (exit w l (spawned st), Err err)
  | None =>
      let '(w, l, sp, err) := NewIPSet_remotes (RemoteFiles args) lp l w (spawned st) in
      match err with
      | Some err => (exit w l sp, Err err)
      | None =>
          let l := Sort l in
          let mg := if (0 <? Len l)%nat then [ListAt lp] else [] in
          match NewIPSet_sets (Sets args) mg with
          | Err err => (exit w l sp, Err err)
          | Ok mg => (exit w l sp, Ok {| mg := mg |})
          end
      end
  end.

End Remote.
End Loading.

(** [m.Match(addr)] on a value of the interface, the store being [h]. *)
Definition Matcher_Match (h : gmap loc List) (m : Matcher) (addr : Addr) : bool :=
  match m with
  | ListAt l => match h !! l with Some l => Match l addr | None => false end
  | Provided f => f addr
  end.

Section MatcherGroup.
Context {M : Type}.
(** The method [Match] of the interface [netlist.Matcher]. *)
Variable Match : M -> Addr -> bool.

(** [func (mg MatcherGroup) Match(addr netip.Addr) bool] *)
Fixpoint MatcherGroup_Match (mg : list M) (addr : Addr) : bool :=
  match mg with
  | [] => false
  | m :: mg' => if Match m addr then true else MatcherGroup_Match mg' addr
  end.

(** The same loop, which also returns the components whose [Match] it
    called, in the order of the calls. *)
Fixpoint MatcherGroup_Match_calls (mg : list M) (addr : Addr) : bool * list M :=
  match mg with
  | [] => (false, [])
  | m :: mg' =>
      if Match m addr then (true, [m])
      else let (r, calls) := MatcherGroup_Match_calls mg' addr in (r, m :: calls)
  end.

End MatcherGroup.

(** [d.GetIPMatcher().Match(addr)] in the state [st]. *)
Definition IPSet_Match (st : State List) (d : IPSet) (addr : Addr) : bool :=
  MatcherGroup_Match (Matcher_Match (heap st)) (mg d) addr.

End ip_set.


(** ** [pkg/matcher/domain]

    The package is not among the sources. *)
Module domain.

(** Modelled from the spec: [domain.MixMatcher], missing from the
    sources, a black box with the contract register a pattern, test a
    key, report the count.  Its operations are the fields of a class; a
    matcher is mutable, so [Add] and [LoadFromTextReader] return the
    matcher as they leave it, also when they fail. *)
Class MixMatcherOps : Type := {
  MixMatcher : Type;
  NewDomainMixMatcher : MixMatcher;
  Add : string -> MixMatcher -> MixMatcher * option error;
  LoadFromTextReader : MixMatcher -> string -> MixMatcher * option error;
  Len : MixMatcher -> nat;
  Match : MixMatcher -> string -> bool
}.

End domain.

(** ** Package [domain_set] *)
Module domain_set.
Import domain.

Record Args : Type := {
  Exps : list string;
  Sets : list string;
  Files : list string;
  RemoteFiles : list RemoteFile
}.

Section Loading.
Context {D : MixMatcherOps}.

(** A value of the interface [domain.Matcher[struct{}]] held by a set. *)
Inductive Matcher : Type :=
| MixAt (m : loc)
| Provided (f : string -> bool).

(** [type DomainSet struct { mg []domain.Matcher[struct{}] }] *)
Record DomainSet : Type := { mg : list Matcher }.

(** The loop of [LoadExps], from index [i] on. *)
Fixpoint LoadExps_loop (i : nat) (exps : list string) (m : MixMatcher)
    : MixMatcher * option error :=
  match exps with
  | [] => (m, None)
  | exp :: exps' =>
      let (m, err) := Add exp m in
      match err with
      | Some err =>
          (m, Some (fmt_Errorf ("failed to load expression #" ++ fmt_d i ++ " " ++ exp ++ ", ") err))
      | None => LoadExps_loop (S i) exps' m
      end
  end.

Definition LoadExps (exps : list string) (m : MixMatcher) : MixMatcher * option error :=
  LoadExps_loop 0 exps m.

Definition LoadFile (f : string) (m : MixMatcher) (w : World)
    : World * MixMatcher * option error :=
  if (0 <? String.length f)%nat then
    let (w, r) := os_ReadFile f w in
    match r with
    | Err err => (w, m, Some err)
    | Ok b =>
        let (m, err) := LoadFromTextReader m b in
        (w, m, err)
    end
  else (w, m, None).

(** The loop of [LoadFiles], from index [i] on. *)
Fixpoint LoadFiles_loop (i : nat) (fs : list string) (m : MixMatcher) (w : World)
    : World * MixMatcher * option error :=
  match fs with
  | [] => (w, m, None)
  | f :: fs' =>
      let '(w, m, err) := LoadFile f m w in
      match err with
      | Some err =>
          (w, m, Some (fmt_Errorf ("failed to load file #" ++ fmt_d i ++ " " ++ f ++ ", ") err))
      | None => LoadFiles_loop (S i) fs' m w
      end
  end.

Definition LoadFiles (fs : list string) (m : MixMatcher) (w : World)
    : World * MixMatcher * option error :=
  LoadFiles_loop 0 fs m w.

Definition LoadExpsAndFiles (exps fs : list string) (m : MixMatcher) (w : World)
    : World * MixMatcher * option error :=
  let (m, err) := LoadExps exps m in
  match err with
  | Some err => (w, m, Some err)
  | None => LoadFiles fs m w
  end.

Section Remote.
Variable env : Env.

Definition LoadRemoteFile (rf : RemoteFile) (m : MixMatcher) (w : World)
    : World * MixMatcher * option error :=
  let dir := filepath_Dir env (Path rf) in
  let (w, err) :=
    if negb (String.eqb dir "") then os_MkdirAll env dir w else (w, None) in
  match err with
  | Some err => (w, m, Some (fmt_Errorf ("failed to create directory " ++ dir ++ ": ") err))
  | None =>
      let (w, notExist) := os_Stat_IsNotExist (Path rf) w in
      let (w, err) :=
        if notExist then downloadFile env (URL rf) (Path rf) w else (w, None) in
      match err with
      | Some err => (w, m, Some err)
      | None =>
          let '(w, m, err) := LoadFile (Path rf) m w in
          match err with
          | Some err => (w, m, Some err)
          | None =>
              let (w, err) := downloadFile env (URL rf) (Path rf) w in
              match err with
              | Some err => (w, m, Some (fmt_Errorf "failed to update remote file: " err))
              | None => LoadFile (Path rf) m w
              end
          end
      end
  end.

(** One iteration of the loop [for range ticker.C] of
    [updateRemoteFile]: [*m = *newMatcher] overwrites the matcher behind
    the pointer [m]. *)
Definition updateRemoteFile_tick (rf : RemoteFile) (m : loc) (st : State MixMatcher)
    : State MixMatcher :=
  let newMatcher := NewDomainMixMatcher in
  let (w, err) := downloadFile env (URL rf) (Path rf) (world st) in
  match err with
  | Some _ =>
      {| world := w; heap := heap st; next := next st; spawned := spawned st |}
  | None =>
      let '(w, newMatcher, err) := LoadFile (Path rf) newMatcher w in
      match err with
      | Some _ =>
          {| world := w; heap := heap st; next := next st; spawned := spawned st |}
      | None =>
          {| world := w; heap := <[m := newMatcher]> (heap st);
             next := next st; spawned := spawned st |}
      end
  end.

(** The first [n] ticks of [updateRemoteFile(rf, m)]. *)
Fixpoint updateRemoteFile (n : nat) (rf : RemoteFile) (m : loc) (st : State MixMatcher)
    : State MixMatcher :=
  match n with
  | O => st
  | S n' => updateRemoteFile n' rf m (updateRemoteFile_tick rf m st)
  end.

(** The loop over [args.RemoteFiles] in [NewDomainSet]; [mp] is the
    pointer [m], [m] the matcher behind it. *)
Fixpoint NewDomainSet_remotes (rfs : list RemoteFile) (mp : loc) (m : MixMatcher)
    (w : World) (sp : list (RemoteFile * loc))
    : World * MixMatcher * list (RemoteFile * loc) * option error :=
  match rfs with
  | [] => (w, m, sp, None)
  | rf :: rfs' =>
      let '(w, m, err) := LoadRemoteFile rf m w in
      match err with
      | Some err =>
          (w, m, sp, Some (fmt_Errorf ("failed to load remote file " ++ URL rf ++ ": ") err))
      | None =>
          let sp := if (0 <? Interval rf)%Z then (sp ++ [(rf, mp)])%list else sp in
          NewDomainSet_remotes rfs' mp m w sp
      end
  end.

(** [bp.M().GetPlugin(tag).(data_provider.DomainMatcherProvider)]
    followed by [GetDomainMatcher()]; [None] when the tag is unknown or
    the plugin is not a [DomainMatcherProvider]. *)
Variable GetDomainMatcher : string -> option Matcher.

(** The loop over [args.Sets] in [NewDomainSet]. *)
Fixpoint NewDomainSet_sets (tags : list string) (mg : list Matcher)
    : result (list Matcher) :=
  match tags with
  | [] => Ok mg
  | tag :: tags' =>
      match GetDomainMatcher tag with
      | None => Err (errors_New (tag ++ " is not a DomainMatcherProvider"))
      | Some m => NewDomainSet_sets tags' (mg ++ [m])%list
      end
  end.

Definition NewDomainSet (args : Args) (st : State MixMatcher)
    : State MixMatcher * result DomainSet :=
  let mp := next st in
  let exit (w : World) (m : MixMatcher) (sp : list (RemoteFile * loc))
      : State MixMatcher :=
    {| world := w; heap := <[mp := m]> (heap st); next := S mp; spawned := sp |} in
  let '(w, m, err) :=
    LoadExpsAndFiles (Exps args) (Files args) NewDomainMixMatcher (world st) in
  match err with
  | Some err => (exit w m (spawned st), Err err)
  | None =>
      let '(w, m, sp, err) := NewDomainSet_remotes (RemoteFiles args) mp m w (spawned st) in
      match err with
      | Some err => (exit w m sp, Err err)
      | None =>
          let mg := if (0 <? Len m)%nat then [MixAt mp] else [] in
          match NewDomainSet_sets (Sets args) mg with
          | Err err => (exit w m sp, Err err)
          | Ok mg => (exit w m sp, Ok {| mg := mg |})
          end
      end
  end.

End Remote.
End Loading.

End domain_set.


(** ** Concrete environments for the examples *)

(** A parser of IPv6 text that accepts nothing: the examples use IPv4
    only. *)
Definition reject_ipv6 : netip.IPv6Parser :=
  fun _ => Err (errors_New "unable to parse IP").

(** A domain matcher of exact names: the empty expression is refused,
    every other one is a name; a text registers its non-blank lines. *)
Fixpoint exact_names_load (ls : list string) (m : list string) : list string * option error :=
  match ls with
  | [] => (m, None)
  | s :: ls' =>
      if String.eqb s "" then exact_names_load ls' m
      else if ContainsRune s " " then (m, Some (errors_New ("invalid domain " ++ s)))
      else exact_names_load ls' (m ++ [s])%list
  end.

Definition exact_names : domain.MixMatcherOps := {|
  domain.MixMatcher := list string;
  domain.NewDomainMixMatcher := [];
  domain.Add := fun exp m =>
    if (String.eqb exp "" || ContainsRune exp " ")%bool
    then (m, Some (errors_New ("invalid domain " ++ exp)))
    else ((m ++ [exp])%list, None);
  domain.LoadFromTextReader := fun m b => exact_names_load (netlist.lines b) m;
  domain.Len := fun m => length m;
  domain.Match := fun m name => existsb (String.eqb name) m
|}.

Definition example_rf : RemoteFile :=
  {| URL := "https://rules.example/list.txt";
     Path := "/var/lib/mosdns/list.txt";
     Interval := 60 |}.

(** An environment whose server answers every request with [body n],
    [n] being the number of the request. *)
Definition serving (body : nat -> Download) : Env :=
  {| filepath_Dir := fun _ => "/var/lib/mosdns";
     MkdirAll := fun _ => None;
     remote := fun n _ _ => body n |}.

Definition empty_world : World := {| files := ∅; requests := 0; trace := [] |}.

Definition world_with (path content : string) : World :=
  {| files := {[ path := Regular content ]}; requests := 0; trace := [] |}.

Definition initial_state {L : Type} (w : World) : State L :=
  {| world := w; heap := ∅; next := 0; spawned := [] |}.

Definition addr4 (a b c d : N) : netip.Addr := netip.AddrFrom4 a b c d.

(** A state in which the list behind pointer [0] serves
    [198.51.100.0/24], loaded from the local copy of [example_rf]. *)
Definition live_state : State netlist.List :=
  {| world := world_with (Path example_rf) "198.51.100.0/24";
     heap := {[ 0%nat := netlist.Sort
                  (netlist.Append (netip.PrefixFrom (addr4 198 51 100 0) 24) netlist.NewList) ]};
     next := 1;
     spawned := [(example_rf, 0%nat)] |}.

Definition two_bad_ips : ip_set.Args :=
  {| ip_set.IPs := ["bogus"; "300.2.2.2"]; ip_set.Sets := [];
     ip_set.Files := []; ip_set.RemoteFiles := [] |}.

Definition second_ip_bad : ip_set.Args :=
  {| ip_set.IPs := ["198.51.100.7"; "bogus"]; ip_set.Sets := [];
     ip_set.Files := []; ip_set.RemoteFiles := [] |}.

(** A local copy whose second line is not an address. *)
Definition stale_content : string :=
  "198.51.100.7" ++ String "010" "not an address".

(** Only a remote file. *)
Definition remote_only : ip_set.Args :=
  {| ip_set.IPs := []; ip_set.Sets := []; ip_set.Files := [];
     ip_set.RemoteFiles := [example_rf] |}.

(** One inline address and a remote file. *)
Definition inline_and_remote : ip_set.Args :=
  {| ip_set.IPs := ["10.0.0.1"]; ip_set.Sets := []; ip_set.Files := [];
     ip_set.RemoteFiles := [example_rf] |}.

(** The same for [domain_set]. *)
Definition domain_remote_only : domain_set.Args :=
  {| domain_set.Exps := []; domain_set.Sets := []; domain_set.Files := [];
     domain_set.RemoteFiles := [example_rf] |}.

(** One inline name and a remote file. *)
Definition domain_inline_and_remote : domain_set.Args :=
  {| domain_set.Exps := ["example.org"]; domain_set.Sets := []; domain_set.Files := [];
     domain_set.RemoteFiles := [example_rf] |}.

(** A server whose file changes after the two requests of the
    construction. *)
Definition changing_server : Env :=
  serving (fun n => if (n <? 2)%nat then Downloaded "198.51.100.0/24"
                    else Downloaded "192.0.2.0/24").

(** The prefixes that the loop of [LoadFromReader] registers: those of
    the non-blank lines before the first line that is refused. *)
Fixpoint registered (parse : string -> result netip.Prefix) (ls : list string)
    : list netip.Prefix :=
  match ls with
  | [] => []
  | s :: ls' =>
      if String.eqb s "" then registered parse ls'
      else
        match parse s with
        | Err _ => []
        | Ok p => p :: registered parse ls'
        end
  end.


(** Two local files, the second of which holds a line that is no
    address, and a path with no file. *)
Definition two_local_files : World :=
  {| files := {[ "/etc/mosdns/a.txt" := Regular "198.51.100.0/24";
                 "/etc/mosdns/b.txt" := Regular "not an address" ]};
     requests := 0; trace := [] |}.

Definition nonempty_path_b (f : string) : bool := (0 <? String.length f)%nat.

(** Every list of the store has its sort invariant. *)
Definition all_sorted (h : gmap loc netlist.List) : Prop :=
  forall (l : loc) (x : netlist.List), h !! l = Some x -> netlist.sorted x = true.

(** The remote files for which [go updateRemoteFile] is started. *)
Definition refreshed (rf : RemoteFile) : bool := (0 <? Interval rf)%Z.

(** A server whose file is empty during the construction and holds a
    rule afterwards. *)
Definition late_server : Env :=
  serving (fun n => if (n <? 2)%nat then Downloaded "" else Downloaded "192.0.2.0/24").

(** Whether a system call reads a file. *)
Definition is_read (ev : Event) : bool :=
  match ev with EvReadFile _ => true | _ => false end.

(** A registry with the one provider [geoip], which matches nothing. *)
Definition only_geoip (tag : string) : option ip_set.Matcher :=
  if String.eqb tag "geoip" then Some (ip_set.Provided (fun _ => false)) else None.

(** An inline address and two references, the second to no provider. *)
Definition with_unknown_set : ip_set.Args :=
  {| ip_set.IPs := ["10.0.0.1"]; ip_set.Sets := ["geoip"; "missing"];
     ip_set.Files := []; ip_set.RemoteFiles := [] |}.

(** The ways in which a remote source fails before its first load: the
    directory cannot be made, or the local file is missing and cannot be
    downloaded. *)
Definition fails_before_load (env : Env) (rf : RemoteFile) (w : World) : Prop :=
  let dir := filepath_Dir env (Path rf) in
  (String.eqb dir "" = false /\ MkdirAll env dir <> None) \/
  ((dir = "" \/ MkdirAll env dir = None) /\
   lookup_file w (Path rf) = None /\
   forall body, remote env (requests w) (URL rf) (Path rf) <> Downloaded body).

(** * Properties *)

(** ** The matcher group *)
Section MatcherGroupFacts.
Context {M : Type} (Match : M -> netip.Addr -> bool).

Lemma MatcherGroup_Match_existsb (mg : list M) (addr : netip.Addr) :
  ip_set.MatcherGroup_Match Match mg addr = existsb (fun m => Match m addr) mg.
Proof.
  induction mg as [|m mg IH]; simpl; [reflexivity|].
  rewrite IH. destruct (Match m addr); reflexivity.
Qed.

Lemma MatcherGroup_Match_calls_fst (mg : list M) (addr : netip.Addr) :
  fst (ip_set.MatcherGroup_Match_calls Match mg addr) = ip_set.MatcherGroup_Match Match mg addr.
Proof.
  induction mg as [|m mg IH]; simpl; [reflexivity|].
  destruct (Match m addr); [reflexivity|].
  destruct (ip_set.MatcherGroup_Match_calls Match mg addr); simpl in *. exact IH.
Qed.

(** The calls are a prefix of the group: on a hit the prefix ends with
    the first component that matches, all before it having missed; with
    no hit the calls are the whole group, no component of which matches. *)
Lemma MatcherGroup_Match_calls_shape (mg : list M) (addr : netip.Addr) :
  let (r, calls) := ip_set.MatcherGroup_Match_calls Match mg addr in
  if r then
    exists pre m rest,
      mg = (pre ++ m :: rest)%list /\ calls = (pre ++ [m])%list /\
      Match m addr = true /\ forallb (fun m' => negb (Match m' addr)) pre = true
  else calls = mg /\ forallb (fun m' => negb (Match m' addr)) mg = true.
Proof.
  induction mg as [|m mg IH]; simpl.
  - split; reflexivity.
  - destruct (Match m addr) eqn:Hm.
    + exists [], m, mg. repeat split; assumption.
    + destruct (ip_set.MatcherGroup_Match_calls Match mg addr) as [r calls].
      destruct r.
      * destruct IH as (pre & m' & rest & -> & -> & Hhit & Hpre).
        exists (m :: pre), m', rest. repeat split; [assumption|].
        simpl. rewrite Hm. exact Hpre.
      * destruct IH as [-> Hall]. split; [reflexivity|].
        simpl. exact Hall.
Qed.

End MatcherGroupFacts.

(** C6: [MatcherGroup.Match] returns true exactly when some component of
    the group matches the key; it calls the components in the order of the
    group and stops at the first one that matches, and returns false on
    the empty group and when it has called every component without a
    hit. *)
Theorem MatcherGroup_Match_first_hit :
  forall (M : Type) (Match : M -> netip.Addr -> bool) (mg : list M) (addr : netip.Addr),
    (ip_set.MatcherGroup_Match Match mg addr = true <->
     exists m, In m mg /\ Match m addr = true) /\
    ip_set.MatcherGroup_Match Match [] addr = false /\
    fst (ip_set.MatcherGroup_Match_calls Match mg addr) = ip_set.MatcherGroup_Match Match mg addr /\
    (let (r, calls) := ip_set.MatcherGroup_Match_calls Match mg addr in
     if r then
       exists pre m rest,
         mg = (pre ++ m :: rest)%list /\ calls = (pre ++ [m])%list /\
         Match m addr = true /\ forallb (fun m' => negb (Match m' addr)) pre = true
     else calls = mg /\ forallb (fun m' => negb (Match m' addr)) mg = true).
Proof.
  intros M Match mg addr. repeat split.
  - rewrite MatcherGroup_Match_existsb. intros H.
    apply existsb_exists in H. exact H.
  - rewrite MatcherGroup_Match_existsb. intros H.
    apply existsb_exists. exact H.
  - apply MatcherGroup_Match_calls_fst.
  - apply MatcherGroup_Match_calls_shape.
Qed.

(** C9: the result of [MatcherGroup.Match] does not depend on the order
    of the components: on a permutation of the group it returns the same
    boolean for every key. *)
Theorem MatcherGroup_Match_permutation :
  forall (M : Type) (Match : M -> netip.Addr -> bool) (mg mg' : list M) (addr : netip.Addr),
    Permutation mg mg' ->
    ip_set.MatcherGroup_Match Match mg' addr = ip_set.MatcherGroup_Match Match mg addr.
Proof.
  intros M Match mg mg' addr HP.
  induction HP as [|m l l' _ IH|m1 m2 l|l1 l2 l3 _ IH1 _ IH2]; simpl.
  - reflexivity.
  - rewrite IH. reflexivity.
  - destruct (Match m1 addr), (Match m2 addr); reflexivity.
  - congruence.
Qed.

Lemma MatcherGroup_Match_permutation_witness :
  let a := netlist.NewList in
  let b := netlist.Append (netip.PrefixFrom (addr4 198 51 100 0) 24) netlist.NewList in
  Permutation [a; b] [b; a] /\
  ip_set.MatcherGroup_Match netlist.Match [b; a] (addr4 198 51 100 7) =
  ip_set.MatcherGroup_Match netlist.Match [a; b] (addr4 198 51 100 7).
Proof.
  split.
  - apply perm_swap.
  - apply (MatcherGroup_Match_permutation netlist.List netlist.Match).
    apply perm_swap.
Defined.

(** ** Parsing IP expressions *)
Section ParseFacts.
Context {V6 : netip.IPv6Parser}.

Lemma mask_top_full (w a : N) : netip.mask_top w w a = a.
Proof.
  unfold netip.mask_top. rewrite N.sub_diag.
  rewrite N.shiftr_0_r, N.shiftl_0_r. reflexivity.
Qed.

(** Text without a slash that [ParseAddr] accepts becomes the prefix of
    that very address with all its bits: 32 for IPv4, 128 for IPv6. *)
Lemma parseNetipPrefix_bare (s : string) (addr : netip.Addr) :
  ContainsRune s "/" = false ->
  netip.ParseAddr s = Ok addr ->
  ip_set.parseNetipPrefix s =
    Ok (netip.PrefixFrom (netip.withoutZone addr) (Z.to_N (netip.BitLen addr))).
Proof.
  intros Hslash Hparse. unfold ip_set.parseNetipPrefix.
  rewrite Hslash, Hparse.
  destruct addr as [a|a z]; unfold netip.Addr_Prefix, netip.BitLen; simpl.
  - rewrite (mask_top_full 32). reflexivity.
  - rewrite (mask_top_full 128). reflexivity.
Qed.

Lemma parse_198_51_100_7 :
  ip_set.parseNetipPrefix "198.51.100.7" = Ok (netip.PrefixFrom (addr4 198 51 100 7) 32).
Proof. vm_compute. reflexivity. Qed.

Lemma parse_198_51_100_7_32 :
  ip_set.parseNetipPrefix "198.51.100.7/32" = Ok (netip.PrefixFrom (addr4 198 51 100 7) 32).
Proof. vm_compute. reflexivity. Qed.

Lemma parse_198_51_100_0_24 :
  ip_set.parseNetipPrefix "198.51.100.0/24" = Ok (netip.PrefixFrom (addr4 198 51 100 0) 24).
Proof. vm_compute. reflexivity. Qed.

End ParseFacts.

(** C8: [parseNetipPrefix] turns a bare address into the host prefix of
    that address (all 32 or 128 bits), so ["198.51.100.7"] and
    ["198.51.100.7/32"] insert the same prefix and give the same
    membership for every key; after inserting ["198.51.100.0/24"] the set
    matches 198.51.100.7 and does not match 198.51.101.1. *)
Theorem parseNetipPrefix_host_prefix :
  forall (V6 : netip.IPv6Parser),
    (forall (s : string) (addr : netip.Addr),
        ContainsRune s "/" = false ->
        netip.ParseAddr s = Ok addr ->
        ip_set.parseNetipPrefix s =
          Ok (netip.PrefixFrom (netip.withoutZone addr) (Z.to_N (netip.BitLen addr)))) /\
    ip_set.parseNetipPrefix "198.51.100.7" = Ok (netip.PrefixFrom (addr4 198 51 100 7) 32) /\
    ip_set.parseNetipPrefix "198.51.100.7/32" = ip_set.parseNetipPrefix "198.51.100.7" /\
    (forall (l : netlist.List) (addr : netip.Addr),
        ip_set.LoadFromIPs ["198.51.100.7"] l = ip_set.LoadFromIPs ["198.51.100.7/32"] l /\
        netlist.Match (netlist.Sort (fst (ip_set.LoadFromIPs ["198.51.100.7"] l))) addr =
        netlist.Match (netlist.Sort (fst (ip_set.LoadFromIPs ["198.51.100.7/32"] l))) addr) /\
    (let (l, err) := ip_set.LoadFromIPs ["198.51.100.0/24"] netlist.NewList in
     err = None /\
     netlist.Match (netlist.Sort l) (addr4 198 51 100 7) = true /\
     netlist.Match (netlist.Sort l) (addr4 198 51 101 1) = false).
Proof.
  intros V6.
  assert (Heq : forall l,
             ip_set.LoadFromIPs ["198.51.100.7"] l = ip_set.LoadFromIPs ["198.51.100.7/32"] l).
  { intros l. unfold ip_set.LoadFromIPs. cbn [ip_set.LoadFromIPs_loop].
    replace (ip_set.parseNetipPrefix "198.51.100.7/32")
      with (ip_set.parseNetipPrefix "198.51.100.7"); [reflexivity|].
    transitivity (Ok (netip.PrefixFrom (addr4 198 51 100 7) 32));
      [apply parse_198_51_100_7 | symmetry; apply parse_198_51_100_7_32]. }
  split; [exact (@parseNetipPrefix_bare V6)|].
  split; [apply parse_198_51_100_7|].
  split; [transitivity (Ok (netip.PrefixFrom (addr4 198 51 100 7) 32));
          [apply parse_198_51_100_7_32 | symmetry; apply parse_198_51_100_7]|].
  split.
  - intros l addr. rewrite (Heq l). split; reflexivity.
  - unfold ip_set.LoadFromIPs. cbn [ip_set.LoadFromIPs_loop].
    rewrite parse_198_51_100_0_24.
    repeat split; vm_compute; reflexivity.
Qed.

Lemma parseNetipPrefix_host_prefix_witness :
  ContainsRune "198.51.100.7" "/" = false /\
  netip.ParseAddr (V6 := reject_ipv6) "198.51.100.7" = Ok (addr4 198 51 100 7) /\
  ip_set.parseNetipPrefix (V6 := reject_ipv6) "198.51.100.7" =
    Ok (netip.PrefixFrom (addr4 198 51 100 7) 32).
Proof.
  split; [reflexivity|]. split; [vm_compute; reflexivity|].
  apply (proj1 (parseNetipPrefix_host_prefix reject_ipv6) "198.51.100.7" (addr4 198 51 100 7)).
  - reflexivity.
  - vm_compute. reflexivity.
Defined.

(** ** Errors of the expression loaders *)

Lemma prefix_append (p t : string) : String.prefix p (p ++ t) = true.
Proof.
  induction p as [|c p IH]; simpl.
  - destruct t; reflexivity.
  - destruct (ascii_dec c c) as [_|Hne]; [exact IH|contradiction].
Qed.

Lemma strings_Contains_prefix (s substr : string) :
  String.prefix substr s = true -> strings_Contains s substr = true.
Proof.
  destruct s as [|c s]; simpl.
  - destruct substr; [reflexivity|discriminate].
  - intros ->. reflexivity.
Qed.

Lemma strings_Contains_append_r (a t substr : string) :
  strings_Contains t substr = true -> strings_Contains (a ++ t) substr = true.
Proof.
  intros H. induction a as [|c a IH]; simpl; [exact H|].
  rewrite IH. apply orb_true_r.
Qed.

Lemma append_assoc (a b c : string) : (a ++ b) ++ c = a ++ b ++ c.
Proof.
  induction a as [|x a IH]; [reflexivity|].
  change (String x ((a ++ b) ++ c) = String x (a ++ b ++ c)).
  f_equal. exact IH.
Qed.

(** A message built as [(a ++ x ++ b) ++ c] mentions [x]. *)
Lemma strings_Contains_middle (a x b c : string) :
  strings_Contains ((a ++ x ++ b) ++ c) x = true.
Proof.
  rewrite !append_assoc.
  apply strings_Contains_append_r, strings_Contains_prefix, prefix_append.
Qed.

(** The message [(a ++ i ++ " " ++ x ++ ", ") ++ cause] of a loader
    mentions the text [x]. *)
Ltac message_mentions a i x :=
  cbn [Error];
  rewrite <- (append_assoc a i (" " ++ x ++ ", ")),
          <- (append_assoc (a ++ i) " " (x ++ ", "));
  apply strings_Contains_middle.

Section IPExpressionErrors.
Context {V6 : netip.IPv6Parser}.

(** [LoadFromIPs] stops at the first expression that does not parse and
    reports its index and its text. *)
Lemma LoadFromIPs_loop_first_invalid (ips : list string) :
  forall (k i : nat) (s : string) (cause : error) (l : netlist.List),
    nth_error ips i = Some s ->
    Forall (fun s' => exists p, ip_set.parseNetipPrefix s' = Ok p) (firstn i ips) ->
    ip_set.parseNetipPrefix s = Err cause ->
    exists l',
      ip_set.LoadFromIPs_loop k ips l =
      (l', Some (fmt_Errorf ("invalid ip #" ++ fmt_d (k + i) ++ " " ++ s ++ ", ") cause)).
Proof.
  induction ips as [|a ips IH]; intros k i s cause l Hnth Hvalid Hbad.
  - destruct i; discriminate.
  - destruct i as [|i]; simpl in Hnth.
    + injection Hnth as ->. cbn [ip_set.LoadFromIPs_loop]. rewrite Hbad.
      rewrite Nat.add_0_r. exists l. reflexivity.
    + cbn [firstn] in Hvalid. inversion Hvalid as [|? ? [p Hp] Hrest]; subst.
      cbn [ip_set.LoadFromIPs_loop]. rewrite Hp.
      destruct (IH (S k) i s cause (netlist.Append p l) Hnth Hrest Hbad) as [l' Hl'].
      exists l'. rewrite Hl'. rewrite Nat.add_succ_r. reflexivity.
Qed.

Lemma NewIPSet_invalid_ip (env : Env) (GetIPMatcher : string -> option ip_set.Matcher)
    (args : ip_set.Args) (st : State netlist.List) (e : error) (l : netlist.List) :
  ip_set.LoadFromIPs (ip_set.IPs args) netlist.NewList = (l, Some e) ->
  snd (ip_set.NewIPSet env GetIPMatcher args st) = Err e.
Proof.
  intros H. unfold ip_set.NewIPSet, ip_set.LoadFromIPsAndFiles.
  rewrite H. reflexivity.
Qed.

End IPExpressionErrors.

Section DomainExpressionErrors.
Context {D : domain.MixMatcherOps}.

(** [LoadExps] stops at the first expression that [Add] refuses and
    reports its index and its text. *)
Lemma LoadExps_loop_first_invalid (exps : list string) :
  forall (k i : nat) (exp : string) (cause : error) (m mi m' : domain.MixMatcher),
    nth_error exps i = Some exp ->
    domain_set.LoadExps_loop k (firstn i exps) m = (mi, None) ->
    domain.Add exp mi = (m', Some cause) ->
    domain_set.LoadExps_loop k exps m =
    (m', Some (fmt_Errorf ("failed to load expression #" ++ fmt_d (k + i) ++ " " ++ exp ++ ", ")
                 cause)).
Proof.
  induction exps as [|a exps IH]; intros k i exp cause m mi m' Hnth Hpre Hbad.
  - destruct i; discriminate.
  - destruct i as [|i]; simpl in Hnth.
    + injection Hnth as ->. cbn [firstn domain_set.LoadExps_loop] in Hpre.
      injection Hpre as ->. cbn [domain_set.LoadExps_loop]. rewrite Hbad.
      rewrite Nat.add_0_r. reflexivity.
    + cbn [firstn domain_set.LoadExps_loop] in Hpre.
      cbn [domain_set.LoadExps_loop].
      destruct (domain.Add a m) as [m1 [err|]]; [discriminate|].
      rewrite (IH (S k) i exp cause m1 mi m' Hnth Hpre Hbad).
      rewrite Nat.add_succ_r. reflexivity.
Qed.

Lemma NewDomainSet_invalid_exp (env : Env)
    (GetDomainMatcher : string -> option domain_set.Matcher)
    (args : domain_set.Args) (st : State domain.MixMatcher) (e : error)
    (m : domain.MixMatcher) :
  domain_set.LoadExps (domain_set.Exps args) domain.NewDomainMixMatcher = (m, Some e) ->
  snd (domain_set.NewDomainSet env GetDomainMatcher args st) = Err e.
Proof.
  intros H. unfold domain_set.NewDomainSet, domain_set.LoadExpsAndFiles.
  rewrite H. reflexivity.
Qed.

End DomainExpressionErrors.

(** C7, as the code has it: when the expression at position [i] is the
    first invalid one of the list, loading fails with an error whose
    message names [i] and the text of that expression and which wraps the
    cause, and the constructor returns that error and no set.  This holds
    for [LoadFromIPs] with [NewIPSet] and for [LoadExps] with
    [NewDomainSet]. *)
Theorem first_invalid_expression_is_reported :
  forall (V6 : netip.IPv6Parser) (D : domain.MixMatcherOps) (env : Env)
         (GetIPMatcher : string -> option ip_set.Matcher)
         (GetDomainMatcher : string -> option domain_set.Matcher),
    (forall (args : ip_set.Args) (st : State netlist.List) (i : nat) (s : string)
            (cause : error),
        nth_error (ip_set.IPs args) i = Some s ->
        Forall (fun s' => exists p, ip_set.parseNetipPrefix s' = Ok p)
               (firstn i (ip_set.IPs args)) ->
        ip_set.parseNetipPrefix s = Err cause ->
        let e := fmt_Errorf ("invalid ip #" ++ fmt_d i ++ " " ++ s ++ ", ") cause in
        snd (ip_set.LoadFromIPs (ip_set.IPs args) netlist.NewList) = Some e /\
        snd (ip_set.NewIPSet env GetIPMatcher args st) = Err e /\
        strings_Contains (Error e) ("#" ++ fmt_d i) = true /\
        strings_Contains (Error e) s = true /\
        Unwrap e = Some cause) /\
    (forall (args : domain_set.Args) (st : State domain.MixMatcher) (i : nat)
            (exp : string) (cause : error) (mi m' : domain.MixMatcher),
        nth_error (domain_set.Exps args) i = Some exp ->
        domain_set.LoadExps (firstn i (domain_set.Exps args)) domain.NewDomainMixMatcher
          = (mi, None) ->
        domain.Add exp mi = (m', Some cause) ->
        let e := fmt_Errorf ("failed to load expression #" ++ fmt_d i ++ " " ++ exp ++ ", ")
                   cause in
        snd (domain_set.LoadExps (domain_set.Exps args) domain.NewDomainMixMatcher) = Some e /\
        snd (domain_set.NewDomainSet env GetDomainMatcher args st) = Err e /\
        strings_Contains (Error e) ("#" ++ fmt_d i) = true /\
        strings_Contains (Error e) exp = true /\
        Unwrap e = Some cause).
Proof.
  intros V6 D env GI GD. split.
  - intros args st i s cause Hnth Hvalid Hbad e.
    destruct (LoadFromIPs_loop_first_invalid (ip_set.IPs args) 0 i s cause netlist.NewList
                Hnth Hvalid Hbad) as [l' Hl'].
    cbn [Nat.add] in Hl'. fold (ip_set.LoadFromIPs (ip_set.IPs args) netlist.NewList) in Hl'.
    split; [rewrite Hl'; reflexivity|].
    split; [exact (NewIPSet_invalid_ip env GI args st e l' Hl')|].
    split; [exact (strings_Contains_middle "invalid ip " ("#" ++ fmt_d i) (" " ++ s ++ ", ")
                     (Error cause))|].
    split; [|reflexivity].
    subst e. message_mentions "invalid ip #" (fmt_d i) s.
  - intros args st i exp cause mi m' Hnth Hpre Hbad e.
    pose proof (LoadExps_loop_first_invalid (domain_set.Exps args) 0 i exp cause
                  domain.NewDomainMixMatcher mi m' Hnth Hpre Hbad) as Hl'.
    cbn [Nat.add] in Hl'.
    fold (domain_set.LoadExps (domain_set.Exps args) domain.NewDomainMixMatcher) in Hl'.
    split; [rewrite Hl'; reflexivity|].
    split; [exact (NewDomainSet_invalid_exp env GD args st e m' Hl')|].
    split; [exact (strings_Contains_middle "failed to load expression " ("#" ++ fmt_d i)
                     (" " ++ exp ++ ", ") (Error cause))|].
    split; [|reflexivity].
    subst e. message_mentions "failed to load expression #" (fmt_d i) exp.
Qed.

(** The claim of C7 without the restriction to the first invalid
    position fails: position 1 of [["bogus"; "300.2.2.2"]] is invalid, yet
    the error names position 0 and the text ["bogus"], and mentions
    neither [#1] nor ["300.2.2.2"]. *)
Lemma later_invalid_expression_is_not_reported :
  nth_error (ip_set.IPs two_bad_ips) 1 = Some "300.2.2.2" /\
  ip_set.parseNetipPrefix (V6 := reject_ipv6) "300.2.2.2"
    = Err (errors_New "IPv4 field has value >255") /\
  exists e,
    snd (ip_set.LoadFromIPs (V6 := reject_ipv6) (ip_set.IPs two_bad_ips) netlist.NewList)
      = Some e /\
    Error e = "invalid ip #0 bogus, unable to parse IP" /\
    strings_Contains (Error e) ("#" ++ fmt_d 1) = false /\
    strings_Contains (Error e) "300.2.2.2" = false.
Proof.
  split; [reflexivity|]. split; [vm_compute; reflexivity|].
  eexists. split; [vm_compute; reflexivity|].
  repeat split; vm_compute; reflexivity.
Qed.

Lemma first_invalid_expression_is_reported_witness :
  snd (ip_set.NewIPSet (V6 := reject_ipv6) (serving (fun _ => BadStatus "404 Not Found"))
         (fun _ => None) second_ip_bad (initial_state empty_world))
  = Err (fmt_Errorf "invalid ip #1 bogus, " (errors_New "unable to parse IP")).
Proof.
  assert (Hprev : Forall (fun s' => exists p, ip_set.parseNetipPrefix (V6 := reject_ipv6) s' = Ok p)
                    (firstn 1 (ip_set.IPs second_ip_bad))).
  { constructor; [|constructor].
    exists (netip.PrefixFrom (addr4 198 51 100 7) 32). vm_compute. reflexivity. }
  assert (Hbad : ip_set.parseNetipPrefix (V6 := reject_ipv6) "bogus"
                 = Err (errors_New "unable to parse IP")).
  { vm_compute. reflexivity. }
  destruct (proj1 (first_invalid_expression_is_reported reject_ipv6 exact_names
                     (serving (fun _ => BadStatus "404 Not Found"))
                     (fun _ => None) (fun _ => None))
              second_ip_bad (initial_state empty_world) 1%nat "bogus"
              (errors_New "unable to parse IP") eq_refl Hprev Hbad) as (_ & H & _).
  exact H.
Defined.

(** ** The file system *)

Lemma nonempty_path (f : string) : (0 <? String.length f)%nat = true -> String.eqb f "" = false.
Proof. destruct f; [discriminate|reflexivity]. Qed.

Lemma lookup_file_written (path content : string) (w : World) :
  (0 <? String.length path)%nat = true ->
  lookup_file (write_file path content w) path = Some (Regular content).
Proof.
  intros H. unfold lookup_file, write_file. cbn [files].
  rewrite (nonempty_path path H). apply lookup_insert_eq.
Qed.

Lemma lookup_file_log (ev : Event) (w : World) (path : string) :
  lookup_file (log ev w) path = lookup_file w path.
Proof. reflexivity. Qed.

Lemma lookup_file_nonempty (w : World) (path : string) (f : File) :
  lookup_file w path = Some f -> (0 <? String.length path)%nat = true.
Proof. unfold lookup_file. destruct path; [discriminate|reflexivity]. Qed.

(** The directory of an existing file exists: [MkdirAll] succeeds and
    leaves the files alone. *)
Lemma MkdirAll_of_existing (env : Env) (path : string) (w : World) (f0 : File) :
  lookup_file w path = Some f0 ->
  (filepath_Dir env path = "" \/ MkdirAll env (filepath_Dir env path) = None) ->
  let dir := filepath_Dir env path in
  exists w1,
    (if negb (String.eqb dir "") then os_MkdirAll env dir w else (w, None)) = (w1, None) /\
    lookup_file w1 path = Some f0 /\ requests w1 = requests w /\
    trace w1 = (trace w ++ if String.eqb dir "" then [] else [EvMkdirAll dir])%list.
Proof.
  intros Hfile Hmk dir. subst dir. unfold os_MkdirAll.
  destruct (String.eqb (filepath_Dir env path) "") eqn:Hd; cbn [negb].
  - exists w. rewrite app_nil_r. auto.
  - destruct Hmk as [Hmk|Hmk]; [rewrite Hmk in Hd; discriminate|].
    rewrite Hmk. eexists. split; [reflexivity|]. auto.
Qed.

(** [downloadFile] returns no error exactly when the whole body was
    written. *)
Lemma downloadFile_Downloaded (env : Env) (url path body : string) (w : World) :
  remote env (requests w) url path = Downloaded body ->
  downloadFile env url path w =
  ({| files := <[path := Regular body]> (files w);
      requests := S (requests w);
      trace := (trace w ++ [EvGet url; EvCreate path])%list |}, None).
Proof.
  intros H. unfold downloadFile. rewrite H.
  unfold write_file, log. cbn [files requests trace].
  rewrite <- app_assoc. reflexivity.
Qed.

Lemma downloadFile_None (env : Env) (url path : string) (w w' : World) :
  downloadFile env url path w = (w', None) ->
  exists body, remote env (requests w) url path = Downloaded body.
Proof.
  unfold downloadFile.
  destruct (remote env (requests w) url path) as [e|s|e|wr e|body]; try discriminate.
  intros _. exists body. reflexivity.
Qed.


(** ** One tick of the background refresh *)

Section IPTick.
Context {V6 : netip.IPv6Parser} (env : Env).

(** [LoadFromFile] changes the world by one logged read at most. *)
Lemma ip_LoadFromFile_world (f : string) (l : netlist.List) (w : World) :
  fst (fst (ip_set.LoadFromFile f l w)) =
  if (0 <? String.length f)%nat then log (EvReadFile f) w else w.
Proof.
  unfold ip_set.LoadFromFile.
  destruct (0 <? String.length f)%nat; [|reflexivity].
  unfold os_ReadFile. destruct (lookup_file w f) as [[c|]|]; try reflexivity.
  destruct (netlist.LoadFromReader ip_set.parseNetipPrefix l c). reflexivity.
Qed.

(** The tick, by the outcome of its download and of its load. *)
Lemma ip_tick_unfold (rf : RemoteFile) (l : loc) (st : State netlist.List) :
  let dl := downloadFile env (URL rf) (Path rf) (world st) in
  let ld := ip_set.LoadFromFile (Path rf) netlist.NewList (fst dl) in
  ip_set.updateRemoteFile_tick env rf l st =
  match snd dl, snd ld with
  | Some _, _ =>
      {| world := fst dl; heap := heap st; next := next st; spawned := spawned st |}
  | None, Some _ =>
      {| world := fst (fst ld); heap := heap st; next := next st; spawned := spawned st |}
  | None, None =>
      {| world := fst (fst ld); heap := <[l := netlist.Sort (snd (fst ld))]> (heap st);
         next := next st; spawned := spawned st |}
  end.
Proof.
  unfold ip_set.updateRemoteFile_tick.
  destruct (downloadFile env (URL rf) (Path rf) (world st)) as [w1 [e|]]; cbn [fst snd];
    [reflexivity|].
  destruct (ip_set.LoadFromFile (Path rf) netlist.NewList w1) as [[w2 nl] [e|]];
    reflexivity.
Qed.

End IPTick.

Section DomainTick.
Context {D : domain.MixMatcherOps} (env : Env).

Lemma domain_LoadFile_world (f : string) (m : domain.MixMatcher) (w : World) :
  fst (fst (domain_set.LoadFile f m w)) =
  if (0 <? String.length f)%nat then log (EvReadFile f) w else w.
Proof.
  unfold domain_set.LoadFile.
  destruct (0 <? String.length f)%nat; [|reflexivity].
  unfold os_ReadFile. destruct (lookup_file w f) as [[c|]|]; try reflexivity.
  destruct (domain.LoadFromTextReader m c). reflexivity.
Qed.

Lemma domain_tick_unfold (rf : RemoteFile) (m : loc) (st : State domain.MixMatcher) :
  let dl := downloadFile env (URL rf) (Path rf) (world st) in
  let ld := domain_set.LoadFile (Path rf) domain.NewDomainMixMatcher (fst dl) in
  domain_set.updateRemoteFile_tick env rf m st =
  match snd dl, snd ld with
  | Some _, _ =>
      {| world := fst dl; heap := heap st; next := next st; spawned := spawned st |}
  | None, Some _ =>
      {| world := fst (fst ld); heap := heap st; next := next st; spawned := spawned st |}
  | None, None =>
      {| world := fst (fst ld); heap := <[m := snd (fst ld)]> (heap st);
         next := next st; spawned := spawned st |}
  end.
Proof.
  unfold domain_set.updateRemoteFile_tick.
  destruct (downloadFile env (URL rf) (Path rf) (world st)) as [w1 [e|]]; cbn [fst snd];
    [reflexivity|].
  destruct (domain_set.LoadFile (Path rf) domain.NewDomainMixMatcher w1) as [[w2 nm] [e|]];
    reflexivity.
Qed.

End DomainTick.

(** C5: a tick whose download or whose load of the downloaded file fails
    installs nothing: the store of matchers, and with it every answer a
    reader gets, is the one from before the tick; the tick returns a
    state and no error; and the store changes only when the download and
    the load both succeed, the new content then being the freshly loaded
    matcher.  This holds for [ip_set] and for [domain_set]. *)
Theorem failed_tick_keeps_live_matcher :
  forall (V6 : netip.IPv6Parser) (D : domain.MixMatcherOps) (env : Env) (rf : RemoteFile)
         (l : loc),
    (forall (st : State netlist.List),
        let st' := ip_set.updateRemoteFile_tick env rf l st in
        let dl := downloadFile env (URL rf) (Path rf) (world st) in
        let ld := ip_set.LoadFromFile (Path rf) netlist.NewList (fst dl) in
        ((snd dl <> None \/ snd ld <> None) ->
         heap st' = heap st /\ spawned st' = spawned st /\
         forall (d : ip_set.IPSet) (addr : netip.Addr),
           ip_set.IPSet_Match st' d addr = ip_set.IPSet_Match st d addr) /\
        (heap st' <> heap st -> snd dl = None /\ snd ld = None) /\
        (snd dl = None -> snd ld = None ->
         heap st' = <[l := netlist.Sort (snd (fst ld))]> (heap st))) /\
    (forall (st : State domain.MixMatcher),
        let st' := domain_set.updateRemoteFile_tick env rf l st in
        let dl := downloadFile env (URL rf) (Path rf) (world st) in
        let ld := domain_set.LoadFile (Path rf) domain.NewDomainMixMatcher (fst dl) in
        ((snd dl <> None \/ snd ld <> None) ->
         heap st' = heap st /\ spawned st' = spawned st) /\
        (heap st' <> heap st -> snd dl = None /\ snd ld = None) /\
        (snd dl = None -> snd ld = None -> heap st' = <[l := snd (fst ld)]> (heap st))).
Proof.
  intros V6 D env rf l. split.
  - intros st st' dl ld. subst st'.
    rewrite (ip_tick_unfold env rf l st). fold dl. fold ld.
    destruct (snd dl) as [e1|]; [|destruct (snd ld) as [e2|]]; cbn [heap spawned].
    + intuition congruence.
    + intuition congruence.
    + intuition congruence.
  - intros st st' dl ld. subst st'.
    rewrite (domain_tick_unfold env rf l st). fold dl. fold ld.
    destruct (snd dl) as [e1|]; [|destruct (snd ld) as [e2|]]; cbn [heap spawned].
    + intuition congruence.
    + intuition congruence.
    + intuition congruence.
Qed.

Lemma failed_tick_keeps_live_matcher_witness :
  let env := serving (fun _ => BadStatus "503 Service Unavailable") in
  let st := live_state in
  snd (downloadFile env (URL example_rf) (Path example_rf) (world st)) <> None /\
  heap (ip_set.updateRemoteFile_tick (V6 := reject_ipv6) env example_rf 0 st) = heap st.
Proof.
  intros env st.
  assert (Hfail : snd (downloadFile env (URL example_rf) (Path example_rf) (world st)) <> None).
  { vm_compute. discriminate. }
  split; [exact Hfail|].
  destruct (proj1 (proj1 (failed_tick_keeps_live_matcher reject_ipv6 exact_names env
                            example_rf 0) st) (or_introl Hfail)) as [H _].
  exact H.
Defined.

(** The file that [downloadFile] has just written is there after a load
    that failed; a load of the empty path cannot fail.  [w2] is the world
    after the load, [Hload] the equation of the load, which
    [unfold_load] unfolds. *)
Ltac written_file_stays w2 Hload unfold_load :=
  let Hlen := fresh "Hlen" in
  destruct (0 <? String.length (Path _))%nat eqn:Hlen;
  [ subst w2; rewrite lookup_file_log; unfold lookup_file; cbn [files];
    rewrite (nonempty_path _ Hlen); apply lookup_insert_eq
  | unfold_load; rewrite Hlen in Hload; discriminate ].

(** C10: when the download of a tick succeeds and the load of the
    downloaded file fails, the local file already holds the new remote
    content while the store of matchers is unchanged, so the file on disk
    and the rules being served differ.  This holds for [ip_set] and for
    [domain_set]. *)
Theorem abandoned_tick_leaves_new_file_on_disk :
  forall (V6 : netip.IPv6Parser) (D : domain.MixMatcherOps) (env : Env) (rf : RemoteFile)
         (l : loc) (body : string),
    (forall (st : State netlist.List),
        remote env (requests (world st)) (URL rf) (Path rf) = Downloaded body ->
        snd (ip_set.LoadFromFile (Path rf) netlist.NewList
               (fst (downloadFile env (URL rf) (Path rf) (world st)))) <> None ->
        let st' := ip_set.updateRemoteFile_tick env rf l st in
        lookup_file (world st') (Path rf) = Some (Regular body) /\
        heap st' = heap st) /\
    (forall (st : State domain.MixMatcher),
        remote env (requests (world st)) (URL rf) (Path rf) = Downloaded body ->
        snd (domain_set.LoadFile (Path rf) domain.NewDomainMixMatcher
               (fst (downloadFile env (URL rf) (Path rf) (world st)))) <> None ->
        let st' := domain_set.updateRemoteFile_tick env rf l st in
        lookup_file (world st') (Path rf) = Some (Regular body) /\
        heap st' = heap st).
Proof.
  intros V6 D env rf l body. split.
  - intros st Hdl Hld st'. subst st'.
    rewrite (ip_tick_unfold env rf l st).
    pose proof (ip_LoadFromFile_world (Path rf) netlist.NewList
                  (fst (downloadFile env (URL rf) (Path rf) (world st)))) as Hw.
    rewrite (downloadFile_Downloaded env _ _ body _ Hdl) in *. cbn [fst snd] in *.
    destruct (ip_set.LoadFromFile (Path rf) netlist.NewList _) as [[w2 nl] [err|]] eqn:Hload;
      cbn [fst snd] in *; [|congruence].
    cbn [world heap]. split; [|reflexivity].
    written_file_stays w2 Hload ltac:(unfold ip_set.LoadFromFile in Hload).
  - intros st Hdl Hld st'. subst st'.
    rewrite (domain_tick_unfold env rf l st).
    pose proof (domain_LoadFile_world (Path rf) domain.NewDomainMixMatcher
                  (fst (downloadFile env (URL rf) (Path rf) (world st)))) as Hw.
    rewrite (downloadFile_Downloaded env _ _ body _ Hdl) in *. cbn [fst snd] in *.
    destruct (domain_set.LoadFile (Path rf) domain.NewDomainMixMatcher _)
      as [[w2 nm] [err|]] eqn:Hload; cbn [fst snd] in *; [|congruence].
    cbn [world heap]. split; [|reflexivity].
    written_file_stays w2 Hload ltac:(unfold domain_set.LoadFile in Hload).
Qed.

Lemma abandoned_tick_leaves_new_file_on_disk_witness :
  let env := serving (fun _ => Downloaded "not an address") in
  let st' := ip_set.updateRemoteFile_tick (V6 := reject_ipv6) env example_rf 0 live_state in
  lookup_file (world live_state) (Path example_rf) = Some (Regular "198.51.100.0/24") /\
  lookup_file (world st') (Path example_rf) = Some (Regular "not an address") /\
  heap st' = heap live_state.
Proof.
  intros env st'.
  split; [vm_compute; reflexivity|].
  apply (proj1 (abandoned_tick_leaves_new_file_on_disk reject_ipv6 exact_names env
                  example_rf 0 "not an address") live_state).
  - reflexivity.
  - vm_compute. discriminate.
Defined.

(** ** The construction-time protocol of a remote source *)

Section IPRemote.
Context {V6 : netip.IPv6Parser} (env : Env).

(** Loading is additive: the list keeps what it held. *)
Lemma LoadFromReader_loop_appends (parse : string -> result netip.Prefix) (ls : list string) :
  forall (n : nat) (l : netlist.List),
    netlist.e (fst (netlist.LoadFromReader_loop parse ls n l)) =
    (netlist.e l ++ registered parse ls)%list.
Proof.
  induction ls as [|s ls IH]; intros n l; cbn [netlist.LoadFromReader_loop registered].
  - cbn [fst]. rewrite app_nil_r. reflexivity.
  - destruct (String.eqb s ""); [apply IH|].
    destruct (parse s) as [p|err].
    + rewrite IH. unfold netlist.Append. cbn [netlist.e].
      rewrite <- app_assoc. reflexivity.
    + cbn [fst]. rewrite app_nil_r. reflexivity.
Qed.

Lemma ip_LoadFromFile_regular (f c : string) (l : netlist.List) (w : World) :
  lookup_file w f = Some (Regular c) ->
  ip_set.LoadFromFile f l w =
  (log (EvReadFile f) w,
   fst (netlist.LoadFromReader ip_set.parseNetipPrefix l c),
   snd (netlist.LoadFromReader ip_set.parseNetipPrefix l c)).
Proof.
  intros H. unfold ip_set.LoadFromFile.
  rewrite (lookup_file_nonempty w f _ H). unfold os_ReadFile. rewrite H.
  destruct (netlist.LoadFromReader ip_set.parseNetipPrefix l c). reflexivity.
Qed.


End IPRemote.

Section DomainRemote.
Context {D : domain.MixMatcherOps} (env : Env).

Lemma domain_LoadFile_regular (f c : string) (m : domain.MixMatcher) (w : World) :
  lookup_file w f = Some (Regular c) ->
  domain_set.LoadFile f m w =
  (log (EvReadFile f) w,
   fst (domain.LoadFromTextReader m c), snd (domain.LoadFromTextReader m c)).
Proof.
  intros H. unfold domain_set.LoadFile.
  rewrite (lookup_file_nonempty w f _ H). unfold os_ReadFile. rewrite H.
  destruct (domain.LoadFromTextReader m c). reflexivity.
Qed.


End DomainRemote.

(** An error of the loader of a remote file is an error of the
    constructor. *)
Section Constructors.
Context {V6 : netip.IPv6Parser} {D : domain.MixMatcherOps} (env : Env).





End Constructors.



(** ** The load error of a stale local copy *)

(** In [domain_set] a local copy that cannot be read or parsed makes
    [LoadRemoteFile] fail, before any download. *)
Lemma domain_LoadRemoteFile_first_load_error (D : domain.MixMatcherOps) (env : Env)
    (rf : RemoteFile) (m : domain.MixMatcher) (w : World) (f0 : File) :
  lookup_file w (Path rf) = Some f0 ->
  (filepath_Dir env (Path rf) = "" \/ MkdirAll env (filepath_Dir env (Path rf)) = None) ->
  match f0 with
  | Unreadable => True
  | Regular c0 => snd (domain.LoadFromTextReader m c0) <> None
  end ->
  exists w' m' err,
    domain_set.LoadRemoteFile env rf m w = (w', m', Some err) /\ requests w' = requests w.
Proof.
  intros Hfile Hmk Hbad.
  pose proof (lookup_file_nonempty w (Path rf) _ Hfile) as Hlen.
  unfold domain_set.LoadRemoteFile.
  destruct (MkdirAll_of_existing env (Path rf) w _ Hfile Hmk)
    as (w1 & Hpre & Hf1 & Hr1 & Ht1).
  cbv zeta in *. rewrite Hpre.
  set (dir := filepath_Dir env (Path rf)) in *.
  unfold os_Stat_IsNotExist. rewrite Hf1.
  unfold domain_set.LoadFile. rewrite Hlen. unfold os_ReadFile.
  rewrite lookup_file_log, Hf1.
  destruct f0 as [c0|].
  - destruct (domain.LoadFromTextReader m c0) as [m1 [err|]]; [|contradiction Hbad; reflexivity].
    eexists _, _, _. split; [reflexivity|]. exact Hr1.
  - eexists _, _, _. split; [reflexivity|]. exact Hr1.
Qed.

(** In [ip_set] the result of [LoadFromRemoteFile] is that of the second
    load alone: what the first load returned is not looked at. *)
Lemma ip_LoadFromRemoteFile_drops_first_load_error (V6 : netip.IPv6Parser) (env : Env)
    (rf : RemoteFile) (l : netlist.List) (w : World) (f0 : File) (body : string) :
  lookup_file w (Path rf) = Some f0 ->
  (filepath_Dir env (Path rf) = "" \/ MkdirAll env (filepath_Dir env (Path rf)) = None) ->
  remote env (requests w) (URL rf) (Path rf) = Downloaded body ->
  exists w1 w2 l1 first_err w',
    ip_set.LoadFromFile (Path rf) l w1 = (w2, l1, first_err) /\
    ip_set.LoadFromRemoteFile env rf l w =
      (w', fst (netlist.LoadFromReader ip_set.parseNetipPrefix l1 body),
           snd (netlist.LoadFromReader ip_set.parseNetipPrefix l1 body)).
Proof.
  intros Hfile Hmk Hrem.
  pose proof (lookup_file_nonempty w (Path rf) _ Hfile) as Hlen.
  unfold ip_set.LoadFromRemoteFile.
  destruct (MkdirAll_of_existing env (Path rf) w _ Hfile Hmk)
    as (w1 & Hpre & Hf1 & Hr1 & Ht1).
  cbv zeta in *. rewrite Hpre.
  set (dir := filepath_Dir env (Path rf)) in *.
  unfold os_Stat_IsNotExist. rewrite Hf1.
  pose proof (ip_LoadFromFile_world (Path rf) l (log (EvStat (Path rf)) w1)) as Hw2.
  rewrite Hlen in Hw2.
  destruct (ip_set.LoadFromFile (Path rf) l (log (EvStat (Path rf)) w1))
    as [[w2 l1] first_err] eqn:Hfirst.
  cbn [fst] in Hw2. subst w2.
  set (w3 := log (EvReadFile (Path rf)) (log (EvStat (Path rf)) w1)) in *.
  assert (Hrem3 : remote env (requests w3) (URL rf) (Path rf) = Downloaded body).
  { subst w3. cbn [log requests]. rewrite Hr1. exact Hrem. }
  rewrite (downloadFile_Downloaded env _ _ body w3 Hrem3).
  set (w4 := {| files := _; requests := _; trace := _ |}).
  assert (Hf4 : lookup_file w4 (Path rf) = Some (Regular body)).
  { unfold lookup_file. subst w4. cbn [files]. rewrite (nonempty_path _ Hlen).
    apply lookup_insert_eq. }
  rewrite (ip_LoadFromFile_regular (Path rf) body l1 w4 Hf4).
  exists (log (EvStat (Path rf)) w1), w3, l1, first_err. eexists.
  split; [exact Hfirst|reflexivity].
Qed.

(** C3, where the code departs from it: the local copy of the remote
    source has a second line that is no address, so its load fails; the
    server then delivers a good file.  [LoadFromRemoteFile] and [NewIPSet]
    of [ip_set] succeed, and the set keeps the address of the first line
    of the stale copy; on the same world [LoadRemoteFile] and
    [NewDomainSet] of [domain_set] return the error. *)
Theorem ip_set_ignores_stale_load_error :
  let env := serving (fun _ => Downloaded "192.0.2.0/24") in
  let w := world_with (Path example_rf) stale_content in
  snd (ip_set.LoadFromFile (V6 := reject_ipv6) (Path example_rf) netlist.NewList w)
    = Some (fmt_Errorf "invalid data at line #2: " (errors_New "unable to parse IP")) /\
  snd (ip_set.LoadFromRemoteFile (V6 := reject_ipv6) env example_rf netlist.NewList w) = None /\
  (let (st, r) := ip_set.NewIPSet (V6 := reject_ipv6) env (fun _ => None) remote_only
                    (initial_state w) in
   r = Ok {| ip_set.mg := [ip_set.ListAt 0] |} /\
   ip_set.IPSet_Match st {| ip_set.mg := [ip_set.ListAt 0] |} (addr4 198 51 100 7) = true) /\
  snd (domain_set.LoadRemoteFile (D := exact_names) env example_rf
         (domain.NewDomainMixMatcher (MixMatcherOps := exact_names)) w)
    = Some (errors_New "invalid domain not an address") /\
  snd (domain_set.NewDomainSet (D := exact_names) env (fun _ => None) domain_remote_only
         (initial_state w))
    = Err (fmt_Errorf "failed to load remote file https://rules.example/list.txt: "
             (errors_New "invalid domain not an address")).
Proof.
  repeat split; vm_compute; reflexivity.
Qed.

(** ** What a successful tick installs *)

(** After a successful tick the list behind the pointer holds the rules
    of the downloaded file and nothing else, whatever it held before. *)
Lemma ip_tick_installs_only_the_remote_file (V6 : netip.IPv6Parser) (env : Env)
    (rf : RemoteFile) (l : loc) (st : State netlist.List) (body : string) :
  remote env (requests (world st)) (URL rf) (Path rf) = Downloaded body ->
  (0 <? String.length (Path rf))%nat = true ->
  snd (netlist.LoadFromReader ip_set.parseNetipPrefix netlist.NewList body) = None ->
  let newList := fst (netlist.LoadFromReader ip_set.parseNetipPrefix netlist.NewList body) in
  heap (ip_set.updateRemoteFile_tick env rf l st) = <[l := netlist.Sort newList]> (heap st) /\
  netlist.e newList = registered ip_set.parseNetipPrefix (netlist.lines body).
Proof.
  intros Hrem Hlen Hok newList. split.
  - rewrite (ip_tick_unfold env rf l st).
    rewrite (downloadFile_Downloaded env _ _ body _ Hrem). cbn [fst snd].
    set (w1 := {| files := _; requests := _; trace := _ |}).
    assert (Hf : lookup_file w1 (Path rf) = Some (Regular body)).
    { unfold lookup_file. subst w1. cbn [files]. rewrite (nonempty_path _ Hlen).
      apply lookup_insert_eq. }
    rewrite (ip_LoadFromFile_regular (Path rf) body netlist.NewList w1 Hf).
    cbn [fst snd]. rewrite Hok. reflexivity.
  - subst newList. unfold netlist.LoadFromReader.
    rewrite LoadFromReader_loop_appends. reflexivity.
Qed.

(** C2, where the code departs from it: the set is built from the inline
    address 10.0.0.1 and a remote file; the goroutine of the remote file
    gets the pointer to the one list that also holds the inline address.
    After the construction the set matches 10.0.0.1; after one successful
    tick the list holds the remote rules only and the set no longer
    matches 10.0.0.1.  [domain_set] loses the inline name [example.org]
    the same way. *)
Theorem refresh_tick_drops_static_rules :
  (let env := serving (fun _ => Downloaded "192.0.2.0/24") in
   let (st1, r) := ip_set.NewIPSet (V6 := reject_ipv6) env (fun _ => None) inline_and_remote
                     (initial_state empty_world) in
   let d := {| ip_set.mg := [ip_set.ListAt 0] |} in
   let st2 := ip_set.run_ticks (V6 := reject_ipv6) env [0%nat] st1 in
   r = Ok d /\
   spawned st1 = [(example_rf, 0%nat)] /\
   ip_set.IPSet_Match st1 d (addr4 10 0 0 1) = true /\
   ip_set.IPSet_Match st1 d (addr4 192 0 2 1) = true /\
   ip_set.IPSet_Match st2 d (addr4 10 0 0 1) = false /\
   ip_set.IPSet_Match st2 d (addr4 192 0 2 1) = true) /\
  (let env := serving (fun _ => Downloaded "ads.example") in
   let (st1, r) := domain_set.NewDomainSet (D := exact_names) env (fun _ => None)
                     domain_inline_and_remote (initial_state empty_world) in
   let st2 := domain_set.updateRemoteFile_tick (D := exact_names) env example_rf 0 st1 in
   r = Ok {| domain_set.mg := [domain_set.MixAt 0] |} /\
   spawned st1 = [(example_rf, 0%nat)] /\
   heap st1 !! 0%nat = Some ["example.org"; "ads.example"; "ads.example"] /\
   heap st2 !! 0%nat = Some ["ads.example"]).
Proof.
  split; vm_compute; repeat split; reflexivity.
Qed.

(** C1, where the code departs from it: the set [d] handed to the
    readers holds the pointer [0]; a successful tick leaves that pointer
    in place and overwrites the list behind it, so the very value [d] that
    a reader obtained before the tick answers from the new rules after
    it.  The installation is a write to the shared list, not the exchange
    of a reference. *)
Theorem refresh_overwrites_shared_list_in_place :
  let (st1, r) := ip_set.NewIPSet (V6 := reject_ipv6) changing_server (fun _ => None)
                    remote_only (initial_state empty_world) in
  let d := {| ip_set.mg := [ip_set.ListAt 0] |} in
  let st2 := ip_set.updateRemoteFile_tick (V6 := reject_ipv6) changing_server example_rf 0 st1 in
  r = Ok d /\
  spawned st1 = [(example_rf, 0%nat)] /\
  dom (heap st2) = dom (heap st1) /\
  is_Some (heap st1 !! 0%nat) /\
  heap st2 !! 0%nat <> heap st1 !! 0%nat /\
  ip_set.IPSet_Match st1 d (addr4 198 51 100 7) = true /\
  ip_set.IPSet_Match st2 d (addr4 198 51 100 7) = false /\
  ip_set.IPSet_Match st2 d (addr4 192 0 2 7) = true.
Proof.
  vm_compute. repeat split; try reflexivity.
  - eexists. reflexivity.
  - discriminate.
Qed.

(** * Further properties of the loaders *)

(** ** Groups and expression lists compose *)

(** A group made of two groups matches a key exactly when one of the two
    does. *)
Theorem MatcherGroup_Match_app :
  forall (M : Type) (Match : M -> netip.Addr -> bool) (mg1 mg2 : list M) (addr : netip.Addr),
    ip_set.MatcherGroup_Match Match (mg1 ++ mg2) addr =
    (ip_set.MatcherGroup_Match Match mg1 addr || ip_set.MatcherGroup_Match Match mg2 addr)%bool.
Proof.
  intros M Match mg1 mg2 addr.
  induction mg1 as [|m mg1 IH]; cbn [app ip_set.MatcherGroup_Match]; [reflexivity|].
  destruct (Match m addr); [reflexivity|exact IH].
Qed.

Section LoadersCompose.
Context {V6 : netip.IPv6Parser} {D : domain.MixMatcherOps}.

Lemma LoadFromIPs_loop_app (a b : list string) :
  forall (k : nat) (l : netlist.List),
    ip_set.LoadFromIPs_loop k (a ++ b) l =
    match ip_set.LoadFromIPs_loop k a l with
    | (l1, Some err) => (l1, Some err)
    | (l1, None) => ip_set.LoadFromIPs_loop (k + length a) b l1
    end.
Proof.
  induction a as [|s a IH]; intros k l; cbn [app length ip_set.LoadFromIPs_loop].
  - rewrite Nat.add_0_r. reflexivity.
  - destruct (ip_set.parseNetipPrefix s) as [p|err]; [|reflexivity].
    rewrite IH, Nat.add_succ_r. reflexivity.
Qed.

Lemma LoadExps_loop_app (a b : list string) :
  forall (k : nat) (m : domain.MixMatcher),
    domain_set.LoadExps_loop k (a ++ b) m =
    match domain_set.LoadExps_loop k a m with
    | (m1, Some err) => (m1, Some err)
    | (m1, None) => domain_set.LoadExps_loop (k + length a) b m1
    end.
Proof.
  induction a as [|s a IH]; intros k m; cbn [app length domain_set.LoadExps_loop].
  - rewrite Nat.add_0_r. reflexivity.
  - destruct (domain.Add s m) as [m1 [err|]]; [reflexivity|].
    rewrite IH, Nat.add_succ_r. reflexivity.
Qed.

End LoadersCompose.

(** Loading a list of expressions that is the concatenation of two lists
    is loading the first and, when that succeeds, loading the second
    into the matcher so obtained, the indexes of the error messages
    running on; when the first fails the second is not looked at.  This
    holds for [LoadFromIPs] and for [LoadExps]. *)
Theorem expression_lists_load_in_sequence :
  forall (V6 : netip.IPv6Parser) (D : domain.MixMatcherOps) (a b : list string),
    (forall (l : netlist.List),
        ip_set.LoadFromIPs (a ++ b) l =
        match ip_set.LoadFromIPs a l with
        | (l1, Some err) => (l1, Some err)
        | (l1, None) => ip_set.LoadFromIPs_loop (length a) b l1
        end) /\
    (forall (m : domain.MixMatcher),
        domain_set.LoadExps (a ++ b) m =
        match domain_set.LoadExps a m with
        | (m1, Some err) => (m1, Some err)
        | (m1, None) => domain_set.LoadExps_loop (length a) b m1
        end).
Proof.
  intros V6 D a b. split.
  - intros l. exact (LoadFromIPs_loop_app a b 0 l).
  - intros m. exact (LoadExps_loop_app a b 0 m).
Qed.

Section IPsRegistered.
Context {V6 : netip.IPv6Parser}.

Lemma LoadFromIPs_loop_registers (ips : list string) :
  forall (k : nat) (l : netlist.List),
    exists ps : list netip.Prefix,
      netlist.e (fst (ip_set.LoadFromIPs_loop k ips l)) = (netlist.e l ++ ps)%list /\
      Forall2 (fun s p => ip_set.parseNetipPrefix s = Ok p) (firstn (length ps) ips) ps /\
      match snd (ip_set.LoadFromIPs_loop k ips l) with
      | None => length ps = length ips
      | Some _ =>
          exists s cause,
            nth_error ips (length ps) = Some s /\ ip_set.parseNetipPrefix s = Err cause
      end.
Proof.
  induction ips as [|s ips IH]; intros k l; cbn [ip_set.LoadFromIPs_loop].
  - exists []. cbn. rewrite app_nil_r. repeat split. constructor.
  - destruct (ip_set.parseNetipPrefix s) as [p|cause] eqn:Hs.
    + destruct (IH (S k) (netlist.Append p l)) as (ps & He & Hall & Herr).
      exists (p :: ps). cbn [length firstn]. split; [|split].
      * rewrite He. unfold netlist.Append. cbn [netlist.e].
        rewrite <- app_assoc. reflexivity.
      * constructor; assumption.
      * destruct (snd (ip_set.LoadFromIPs_loop (S k) ips (netlist.Append p l))).
        -- exact Herr.
        -- cbn [length]. rewrite Herr. reflexivity.
    + exists []. cbn [fst snd length firstn nth_error]. rewrite app_nil_r.
      split; [reflexivity|]. split; [constructor|].
      exists s, cause. split; [reflexivity|exact Hs].
Qed.

End IPsRegistered.

(** [LoadFromIPs] keeps what the list held and registers behind it, in
    the order of the list, the prefixes of the expressions before the
    first invalid one: all of them when it returns no error, and only
    those, the list staying so extended, when it returns one. *)
Theorem LoadFromIPs_registers_in_order :
  forall (V6 : netip.IPv6Parser) (ips : list string) (l : netlist.List),
    exists ps : list netip.Prefix,
      netlist.e (fst (ip_set.LoadFromIPs ips l)) = (netlist.e l ++ ps)%list /\
      Forall2 (fun s p => ip_set.parseNetipPrefix s = Ok p) (firstn (length ps) ips) ps /\
      match snd (ip_set.LoadFromIPs ips l) with
      | None => length ps = length ips
      | Some _ =>
          exists s cause,
            nth_error ips (length ps) = Some s /\ ip_set.parseNetipPrefix s = Err cause
      end.
Proof.
  intros V6 ips l. exact (LoadFromIPs_loop_registers ips 0 l).
Qed.

(** ** Local files *)

Section LocalFiles.
Context {V6 : netip.IPv6Parser} {D : domain.MixMatcherOps}.

Lemma ip_LoadFromFiles_loop_world (fs : list string) :
  forall (i : nat) (l : netlist.List) (w : World),
    let r := ip_set.LoadFromFiles_loop i fs l w in
    files (fst (fst r)) = files w /\ requests (fst (fst r)) = requests w /\
    (snd r = None ->
     trace (fst (fst r)) = (trace w ++ map EvReadFile (List.filter nonempty_path_b fs))%list).
Proof.
  induction fs as [|f fs IH]; intros i l w; cbn [ip_set.LoadFromFiles_loop].
  - cbn. rewrite app_nil_r. auto.
  - pose proof (ip_LoadFromFile_world f l w) as Hw.
    destruct (ip_set.LoadFromFile f l w) as [[w1 l1] [err|]]; cbn [fst snd] in *.
    + subst w1. destruct (0 <? String.length f)%nat; cbn; repeat split; discriminate.
    + destruct (IH (S i) l1 w1) as (Hf & Hr & Ht). cbn zeta in *.
      rewrite Hf, Hr. subst w1. cbn [List.filter].
      change (nonempty_path_b f) with (0 <? String.length f)%nat.
      destruct (0 <? String.length f)%nat; cbn [log files requests trace map].
      * repeat split. intros Hok. rewrite (Ht Hok). cbn [log trace].
        rewrite <- app_assoc. reflexivity.
      * repeat split. exact Ht.
Qed.

Lemma domain_LoadFiles_loop_world (fs : list string) :
  forall (i : nat) (m : domain.MixMatcher) (w : World),
    let r := domain_set.LoadFiles_loop i fs m w in
    files (fst (fst r)) = files w /\ requests (fst (fst r)) = requests w /\
    (snd r = None ->
     trace (fst (fst r)) = (trace w ++ map EvReadFile (List.filter nonempty_path_b fs))%list).
Proof.
  induction fs as [|f fs IH]; intros i m w; cbn [domain_set.LoadFiles_loop].
  - cbn. rewrite app_nil_r. auto.
  - pose proof (domain_LoadFile_world f m w) as Hw.
    destruct (domain_set.LoadFile f m w) as [[w1 m1] [err|]]; cbn [fst snd] in *.
    + subst w1. destruct (0 <? String.length f)%nat; cbn; repeat split; discriminate.
    + destruct (IH (S i) m1 w1) as (Hf & Hr & Ht). cbn zeta in *.
      rewrite Hf, Hr. subst w1. cbn [List.filter].
      change (nonempty_path_b f) with (0 <? String.length f)%nat.
      destruct (0 <? String.length f)%nat; cbn [log files requests trace map].
      * repeat split. intros Hok. rewrite (Ht Hok). cbn [log trace].
        rewrite <- app_assoc. reflexivity.
      * repeat split. exact Ht.
Qed.

Lemma ip_LoadFromFiles_loop_first_failure (pre : list string) :
  forall (i : nat) (f : string) (post : list string) (l l1 l2 : netlist.List)
         (w w1 w2 : World) (cause : error),
    ip_set.LoadFromFiles_loop i pre l w = (w1, l1, None) ->
    ip_set.LoadFromFile f l1 w1 = (w2, l2, Some cause) ->
    ip_set.LoadFromFiles_loop i (pre ++ f :: post) l w =
    (w2, l2,
     Some (fmt_Errorf ("failed to load file #" ++ fmt_d (i + length pre) ++ " " ++ f ++ ", ")
             cause)).
Proof.
  induction pre as [|a pre IH]; intros i f post l l1 l2 w w1 w2 cause Hpre Hf.
  - cbn [ip_set.LoadFromFiles_loop] in Hpre. injection Hpre as -> ->.
    cbn [app length ip_set.LoadFromFiles_loop]. rewrite Hf, Nat.add_0_r. reflexivity.
  - cbn [app length ip_set.LoadFromFiles_loop] in *.
    destruct (ip_set.LoadFromFile a l w) as [[wa la] [ea|]]; [discriminate|].
    rewrite (IH (S i) f post la l1 l2 wa w1 w2 cause Hpre Hf), Nat.add_succ_r.
    reflexivity.
Qed.

Lemma domain_LoadFiles_loop_first_failure (pre : list string) :
  forall (i : nat) (f : string) (post : list string) (m m1 m2 : domain.MixMatcher)
         (w w1 w2 : World) (cause : error),
    domain_set.LoadFiles_loop i pre m w = (w1, m1, None) ->
    domain_set.LoadFile f m1 w1 = (w2, m2, Some cause) ->
    domain_set.LoadFiles_loop i (pre ++ f :: post) m w =
    (w2, m2,
     Some (fmt_Errorf ("failed to load file #" ++ fmt_d (i + length pre) ++ " " ++ f ++ ", ")
             cause)).
Proof.
  induction pre as [|a pre IH]; intros i f post m m1 m2 w w1 w2 cause Hpre Hf.
  - cbn [domain_set.LoadFiles_loop] in Hpre. injection Hpre as -> ->.
    cbn [app length domain_set.LoadFiles_loop]. rewrite Hf, Nat.add_0_r. reflexivity.
  - cbn [app length domain_set.LoadFiles_loop] in *.
    destruct (domain_set.LoadFile a m w) as [[wa ma] [ea|]]; [discriminate|].
    rewrite (IH (S i) f post ma m1 m2 wa w1 w2 cause Hpre Hf), Nat.add_succ_r.
    reflexivity.
Qed.

End LocalFiles.

(** Loading local files never writes a file and never makes a request;
    when it succeeds, its system calls are one read for every non-empty
    path, in the order of the list: an empty path is skipped without a
    call.  This holds for [LoadFromFiles] and for [LoadFiles]. *)
Theorem local_files_are_only_read :
  forall (V6 : netip.IPv6Parser) (D : domain.MixMatcherOps) (fs : list string) (w : World),
    (forall (l : netlist.List),
        let r := ip_set.LoadFromFiles fs l w in
        files (fst (fst r)) = files w /\ requests (fst (fst r)) = requests w /\
        (snd r = None ->
         trace (fst (fst r)) = (trace w ++ map EvReadFile (List.filter nonempty_path_b fs))%list)) /\
    (forall (m : domain.MixMatcher),
        let r := domain_set.LoadFiles fs m w in
        files (fst (fst r)) = files w /\ requests (fst (fst r)) = requests w /\
        (snd r = None ->
         trace (fst (fst r)) = (trace w ++ map EvReadFile (List.filter nonempty_path_b fs))%list)).
Proof.
  intros V6 D fs w. split.
  - intros l. exact (ip_LoadFromFiles_loop_world fs 0 l w).
  - intros m. exact (domain_LoadFiles_loop_world fs 0 m w).
Qed.

Lemma local_files_are_only_read_witness :
  let r := ip_set.LoadFromFiles (V6 := reject_ipv6) [""; "/etc/mosdns/a.txt"; ""]
             netlist.NewList two_local_files in
  snd r = None /\
  trace (fst (fst r)) = [EvReadFile "/etc/mosdns/a.txt"].
Proof.
  intros r.
  assert (Hok : snd r = None) by (vm_compute; reflexivity).
  split; [exact Hok|].
  destruct (proj1 (local_files_are_only_read reject_ipv6 exact_names
                     [""; "/etc/mosdns/a.txt"; ""] two_local_files) netlist.NewList)
    as (_ & _ & Ht).
  exact (Ht Hok).
Defined.

(** When the files before position [i] load and the file at position [i]
    does not, loading stops there: the error names [i] and the path and
    wraps the cause, the later files are not read, and the matcher keeps
    what was loaded so far.  This holds for [LoadFromFiles] and for
    [LoadFiles]. *)
Theorem first_failing_file_is_reported :
  forall (V6 : netip.IPv6Parser) (D : domain.MixMatcherOps) (pre post : list string)
         (f : string) (w w1 w2 : World) (cause : error),
    (forall (l l1 l2 : netlist.List),
        ip_set.LoadFromFiles pre l w = (w1, l1, None) ->
        ip_set.LoadFromFile f l1 w1 = (w2, l2, Some cause) ->
        ip_set.LoadFromFiles (pre ++ f :: post) l w =
        (w2, l2,
         Some (fmt_Errorf ("failed to load file #" ++ fmt_d (length pre) ++ " " ++ f ++ ", ")
                 cause))) /\
    (forall (m m1 m2 : domain.MixMatcher),
        domain_set.LoadFiles pre m w = (w1, m1, None) ->
        domain_set.LoadFile f m1 w1 = (w2, m2, Some cause) ->
        domain_set.LoadFiles (pre ++ f :: post) m w =
        (w2, m2,
         Some (fmt_Errorf ("failed to load file #" ++ fmt_d (length pre) ++ " " ++ f ++ ", ")
                 cause))).
Proof.
  intros V6 D pre post f w w1 w2 cause. split.
  - intros l l1 l2 Hpre Hf.
    exact (ip_LoadFromFiles_loop_first_failure pre 0 f post l l1 l2 w w1 w2 cause Hpre Hf).
  - intros m m1 m2 Hpre Hf.
    exact (domain_LoadFiles_loop_first_failure pre 0 f post m m1 m2 w w1 w2 cause Hpre Hf).
Qed.

Lemma first_failing_file_is_reported_witness :
  exists (w2 : World) (l2 : netlist.List),
    ip_set.LoadFromFiles (V6 := reject_ipv6)
      ["/etc/mosdns/a.txt"; "/etc/mosdns/b.txt"; "/etc/mosdns/c.txt"]
      netlist.NewList two_local_files =
    (w2, l2,
     Some (fmt_Errorf "failed to load file #1 /etc/mosdns/b.txt, "
             (fmt_Errorf "invalid data at line #1: " (errors_New "unable to parse IP")))) /\
    trace w2 = [EvReadFile "/etc/mosdns/a.txt"; EvReadFile "/etc/mosdns/b.txt"] /\
    netlist.e l2 = [netip.PrefixFrom (addr4 198 51 100 0) 24].
Proof.
  eexists _, _. split; [|split].
  - eapply (proj1 (first_failing_file_is_reported reject_ipv6 exact_names
                     ["/etc/mosdns/a.txt"] ["/etc/mosdns/c.txt"] "/etc/mosdns/b.txt"
                     two_local_files _ _ _)).
    + vm_compute. reflexivity.
    + vm_compute. reflexivity.
  - reflexivity.
  - reflexivity.
Defined.

(** ** An invalid expression ends the construction at once *)

(** When an inline expression is invalid the constructor returns the
    error of the expression loader without a single system call and
    without starting a goroutine: no file is read, no request is made.
    This holds for [NewIPSet] and for [NewDomainSet]. *)
Theorem invalid_expression_stops_before_any_system_call :
  forall (V6 : netip.IPv6Parser) (D : domain.MixMatcherOps) (env : Env)
         (GetIPMatcher : string -> option ip_set.Matcher)
         (GetDomainMatcher : string -> option domain_set.Matcher) (e : error),
    (forall (args : ip_set.Args) (st : State netlist.List),
        snd (ip_set.LoadFromIPs (ip_set.IPs args) netlist.NewList) = Some e ->
        let r := ip_set.NewIPSet env GetIPMatcher args st in
        snd r = Err e /\ world (fst r) = world st /\ spawned (fst r) = spawned st) /\
    (forall (args : domain_set.Args) (st : State domain.MixMatcher),
        snd (domain_set.LoadExps (domain_set.Exps args) domain.NewDomainMixMatcher) = Some e ->
        let r := domain_set.NewDomainSet env GetDomainMatcher args st in
        snd r = Err e /\ world (fst r) = world st /\ spawned (fst r) = spawned st).
Proof.
  intros V6 D env GI GD e. split.
  - intros args st H r. subst r. unfold ip_set.NewIPSet, ip_set.LoadFromIPsAndFiles.
    destruct (ip_set.LoadFromIPs (ip_set.IPs args) netlist.NewList) as [l [e'|]];
      cbn [snd] in H; [|discriminate].
    injection H as ->. cbn. auto.
  - intros args st H r. subst r. unfold domain_set.NewDomainSet, domain_set.LoadExpsAndFiles.
    destruct (domain_set.LoadExps (domain_set.Exps args) domain.NewDomainMixMatcher)
      as [m [e'|]]; cbn [snd] in H; [|discriminate].
    injection H as ->. cbn. auto.
Qed.

Lemma invalid_expression_stops_before_any_system_call_witness :
  let env := serving (fun _ => Downloaded "192.0.2.0/24") in
  let args := {| ip_set.IPs := ["bogus"]; ip_set.Sets := [];
                 ip_set.Files := ["/etc/mosdns/a.txt"];
                 ip_set.RemoteFiles := [example_rf] |} in
  let r := ip_set.NewIPSet (V6 := reject_ipv6) env (fun _ => None) args
             (initial_state two_local_files) in
  snd r = Err (fmt_Errorf "invalid ip #0 bogus, " (errors_New "unable to parse IP")) /\
  world (fst r) = two_local_files /\ spawned (fst r) = [].
Proof.
  intros env args r.
  apply (proj1 (invalid_expression_stops_before_any_system_call reject_ipv6 exact_names env
                  (fun _ => None) (fun _ => None)
                  (fmt_Errorf "invalid ip #0 bogus, " (errors_New "unable to parse IP")))
           args (initial_state two_local_files)).
  vm_compute. reflexivity.
Defined.

(** ** What a tick leaves alone *)

Lemma downloadFile_frame (env : Env) (url path : string) (w : World) :
  requests (fst (downloadFile env url path w)) = S (requests w) /\
  forall p : string, p <> path ->
    files (fst (downloadFile env url path w)) !! p = files w !! p.
Proof.
  unfold downloadFile.
  destruct (remote env (requests w) url path) as [e|s|e|wr e|body];
    cbn [fst write_file log files requests]; split; try reflexivity;
    intros p Hp; try reflexivity; apply lookup_insert_ne; congruence.
Qed.

Section TickFrame.
Context {V6 : netip.IPv6Parser} {D : domain.MixMatcherOps} (env : Env).

Lemma ip_tick_frame (rf : RemoteFile) (l : loc) (st : State netlist.List) :
  let st' := ip_set.updateRemoteFile_tick env rf l st in
  requests (world st') = S (requests (world st)) /\
  next st' = next st /\ spawned st' = spawned st /\
  (forall l' : loc, l' <> l -> heap st' !! l' = heap st !! l') /\
  (forall p : string, p <> Path rf -> files (world st') !! p = files (world st) !! p).
Proof.
  intros st'. subst st'. rewrite (ip_tick_unfold env rf l st).
  destruct (downloadFile_frame env (URL rf) (Path rf) (world st)) as [Hr Hf].
  pose proof (ip_LoadFromFile_world (Path rf) netlist.NewList
                (fst (downloadFile env (URL rf) (Path rf) (world st)))) as Hw.
  set (dl := downloadFile env (URL rf) (Path rf) (world st)) in *.
  set (ld := ip_set.LoadFromFile (Path rf) netlist.NewList (fst dl)) in *.
  assert (Hw' : requests (fst (fst ld)) = requests (fst dl) /\
                files (fst (fst ld)) = files (fst dl)).
  { rewrite Hw. destruct (0 <? String.length (Path rf))%nat; auto. }
  destruct Hw' as [Hr' Hf'].
  destruct (snd dl); [|destruct (snd ld)]; cbn [world heap next spawned];
    rewrite ?Hr', ?Hf'; repeat split; auto.
  intros l' Hl'. apply lookup_insert_ne. congruence.
Qed.

Lemma domain_tick_frame (rf : RemoteFile) (l : loc) (st : State domain.MixMatcher) :
  let st' := domain_set.updateRemoteFile_tick env rf l st in
  requests (world st') = S (requests (world st)) /\
  next st' = next st /\ spawned st' = spawned st /\
  (forall l' : loc, l' <> l -> heap st' !! l' = heap st !! l') /\
  (forall p : string, p <> Path rf -> files (world st') !! p = files (world st) !! p).
Proof.
  intros st'. subst st'. rewrite (domain_tick_unfold env rf l st).
  destruct (downloadFile_frame env (URL rf) (Path rf) (world st)) as [Hr Hf].
  pose proof (domain_LoadFile_world (Path rf) domain.NewDomainMixMatcher
                (fst (downloadFile env (URL rf) (Path rf) (world st)))) as Hw.
  set (dl := downloadFile env (URL rf) (Path rf) (world st)) in *.
  set (ld := domain_set.LoadFile (Path rf) domain.NewDomainMixMatcher (fst dl)) in *.
  assert (Hw' : requests (fst (fst ld)) = requests (fst dl) /\
                files (fst (fst ld)) = files (fst dl)).
  { rewrite Hw. destruct (0 <? String.length (Path rf))%nat; auto. }
  destruct Hw' as [Hr' Hf'].
  destruct (snd dl); [|destruct (snd ld)]; cbn [world heap next spawned];
    rewrite ?Hr', ?Hf'; repeat split; auto.
  intros l' Hl'. apply lookup_insert_ne. congruence.
Qed.

End TickFrame.



(** ** The set that a constructor returns *)

Section ConstructorLayout.
Context {V6 : netip.IPv6Parser} {D : domain.MixMatcherOps} (env : Env).

Lemma NewIPSet_remotes_spawned (rfs : list RemoteFile) :
  forall (lp : loc) (l l1 : netlist.List) (w w1 : World) (sp sp1 : list (RemoteFile * loc)),
    ip_set.NewIPSet_remotes env rfs lp l w sp = (w1, l1, sp1, None) ->
    sp1 = (sp ++ map (fun rf => (rf, lp)) (List.filter refreshed rfs))%list.
Proof.
  induction rfs as [|rf rfs IH]; intros lp l l1 w w1 sp sp1 H;
    cbn [ip_set.NewIPSet_remotes] in H.
  - injection H as _ _ ->. cbn. rewrite app_nil_r. reflexivity.
  - destruct (ip_set.LoadFromRemoteFile env rf l w) as [[wa la] [e|]]; [discriminate|].
    rewrite (IH _ _ _ _ _ _ _ H). cbn [List.filter].
    change (refreshed rf) with (0 <? Interval rf)%Z.
    destruct (0 <? Interval rf)%Z; [|reflexivity].
    cbn [map]. rewrite <- app_assoc. reflexivity.
Qed.

Lemma NewDomainSet_remotes_spawned (rfs : list RemoteFile) :
  forall (mp : loc) (m m1 : domain.MixMatcher) (w w1 : World)
         (sp sp1 : list (RemoteFile * loc)),
    domain_set.NewDomainSet_remotes env rfs mp m w sp = (w1, m1, sp1, None) ->
    sp1 = (sp ++ map (fun rf => (rf, mp)) (List.filter refreshed rfs))%list.
Proof.
  induction rfs as [|rf rfs IH]; intros mp m m1 w w1 sp sp1 H;
    cbn [domain_set.NewDomainSet_remotes] in H.
  - injection H as _ _ ->. cbn. rewrite app_nil_r. reflexivity.
  - destruct (domain_set.LoadRemoteFile env rf m w) as [[wa ma] [e|]]; [discriminate|].
    rewrite (IH _ _ _ _ _ _ _ H). cbn [List.filter].
    change (refreshed rf) with (0 <? Interval rf)%Z.
    destruct (0 <? Interval rf)%Z; [|reflexivity].
    cbn [map]. rewrite <- app_assoc. reflexivity.
Qed.

Lemma NewIPSet_sets_Ok (G : string -> option ip_set.Matcher) (tags : list string) :
  forall (mg mg' : list ip_set.Matcher),
    ip_set.NewIPSet_sets G tags mg = Ok mg' ->
    exists ms, Forall2 (fun tag m => G tag = Some m) tags ms /\ mg' = (mg ++ ms)%list.
Proof.
  induction tags as [|tag tags IH]; intros mg mg' H; cbn [ip_set.NewIPSet_sets] in H.
  - injection H as <-. exists []. rewrite app_nil_r. split; [constructor|reflexivity].
  - destruct (G tag) as [m|] eqn:Hm; [|discriminate].
    destruct (IH _ _ H) as (ms & Hall & ->).
    exists (m :: ms). rewrite <- app_assoc. split; [constructor; assumption|reflexivity].
Qed.

Lemma NewDomainSet_sets_Ok (G : string -> option domain_set.Matcher) (tags : list string) :
  forall (mg mg' : list domain_set.Matcher),
    domain_set.NewDomainSet_sets G tags mg = Ok mg' ->
    exists ms, Forall2 (fun tag m => G tag = Some m) tags ms /\ mg' = (mg ++ ms)%list.
Proof.
  induction tags as [|tag tags IH]; intros mg mg' H; cbn [domain_set.NewDomainSet_sets] in H.
  - injection H as <-. exists []. rewrite app_nil_r. split; [constructor|reflexivity].
  - destruct (G tag) as [m|] eqn:Hm; [|discriminate].
    destruct (IH _ _ H) as (ms & Hall & ->).
    exists (m :: ms). rewrite <- app_assoc. split; [constructor; assumption|reflexivity].
Qed.

Lemma NewIPSet_sets_unknown (G : string -> option ip_set.Matcher) (pre : list string) :
  forall (tag : string) (post : list string) (mg : list ip_set.Matcher),
    Forall (fun t => is_Some (G t)) pre ->
    G tag = None ->
    ip_set.NewIPSet_sets G (pre ++ tag :: post) mg =
    Err (errors_New (tag ++ " is not an IPMatcherProvider")).
Proof.
  induction pre as [|t pre IH]; intros tag post mg Hpre Htag;
    cbn [app ip_set.NewIPSet_sets].
  - rewrite Htag. reflexivity.
  - inversion Hpre as [|? ? [m Hm] Hrest]; subst. rewrite Hm. apply IH; assumption.
Qed.

Lemma NewDomainSet_sets_unknown (G : string -> option domain_set.Matcher)
    (pre : list string) :
  forall (tag : string) (post : list string) (mg : list domain_set.Matcher),
    Forall (fun t => is_Some (G t)) pre ->
    G tag = None ->
    domain_set.NewDomainSet_sets G (pre ++ tag :: post) mg =
    Err (errors_New (tag ++ " is not a DomainMatcherProvider")).
Proof.
  induction pre as [|t pre IH]; intros tag post mg Hpre Htag;
    cbn [app domain_set.NewDomainSet_sets].
  - rewrite Htag. reflexivity.
  - inversion Hpre as [|? ? [m Hm] Hrest]; subst. rewrite Hm. apply IH; assumption.
Qed.

(** A successful [NewIPSet], step by step. *)
Lemma NewIPSet_Ok_inv (G : string -> option ip_set.Matcher) (args : ip_set.Args)
    (st st' : State netlist.List) (d : ip_set.IPSet) :
  ip_set.NewIPSet env G args st = (st', Ok d) ->
  exists (w0 w1 : World) (l0 l1 : netlist.List) (sp : list (RemoteFile * loc)),
    ip_set.LoadFromIPsAndFiles (ip_set.IPs args) (ip_set.Files args) netlist.NewList
      (world st) = (w0, l0, None) /\
    ip_set.NewIPSet_remotes env (ip_set.RemoteFiles args) (next st) l0 w0 (spawned st)
      = (w1, l1, sp, None) /\
    ip_set.NewIPSet_sets G (ip_set.Sets args)
      (if (0 <? netlist.Len (netlist.Sort l1))%nat then [ip_set.ListAt (next st)] else [])
      = Ok (ip_set.mg d) /\
    st' = {| world := w1; heap := <[next st := netlist.Sort l1]> (heap st);
             next := S (next st); spawned := sp |}.
Proof.
  unfold ip_set.NewIPSet.
  destruct (ip_set.LoadFromIPsAndFiles _ _ _ _) as [[w0 l0] [e0|]] eqn:H0; [discriminate|].
  destruct (ip_set.NewIPSet_remotes _ _ _ _ _ _) as [[[w1 l1] sp] [e1|]] eqn:H1;
    [discriminate|].
  destruct (ip_set.NewIPSet_sets _ _ _) as [mg|e2] eqn:Hsets; [|discriminate].
  intros [= <- <-]. exists w0, w1, l0, l1, sp. cbn [ip_set.mg].
  split; [reflexivity|]. split; [exact H1|]. split; [exact Hsets|reflexivity].
Qed.

Lemma NewDomainSet_Ok_inv (G : string -> option domain_set.Matcher)
    (args : domain_set.Args) (st st' : State domain.MixMatcher) (d : domain_set.DomainSet) :
  domain_set.NewDomainSet env G args st = (st', Ok d) ->
  exists (w0 w1 : World) (m0 m1 : domain.MixMatcher) (sp : list (RemoteFile * loc)),
    domain_set.LoadExpsAndFiles (domain_set.Exps args) (domain_set.Files args)
      domain.NewDomainMixMatcher (world st) = (w0, m0, None) /\
    domain_set.NewDomainSet_remotes env (domain_set.RemoteFiles args) (next st) m0 w0
      (spawned st) = (w1, m1, sp, None) /\
    domain_set.NewDomainSet_sets G (domain_set.Sets args)
      (if (0 <? domain.Len m1)%nat then [domain_set.MixAt (next st)] else [])
      = Ok (domain_set.mg d) /\
    st' = {| world := w1; heap := <[next st := m1]> (heap st);
             next := S (next st); spawned := sp |}.
Proof.
  unfold domain_set.NewDomainSet.
  destruct (domain_set.LoadExpsAndFiles _ _ _ _) as [[w0 m0] [e0|]] eqn:H0; [discriminate|].
  destruct (domain_set.NewDomainSet_remotes _ _ _ _ _ _) as [[[w1 m1] sp] [e1|]] eqn:H1;
    [discriminate|].
  destruct (domain_set.NewDomainSet_sets _ _ _) as [mg|e2] eqn:Hsets; [|discriminate].
  intros [= <- <-]. exists w0, w1, m0, m1, sp. cbn [domain_set.mg].
  split; [reflexivity|]. split; [exact H1|]. split; [exact Hsets|reflexivity].
Qed.

End ConstructorLayout.

(** When a constructor succeeds, the matcher it loaded sits behind a
    fresh pointer; the group is that pointer, if the matcher holds a
    rule, followed by the matchers of the referenced providers in the
    declared order; the goroutines started are those of the remote files
    with a positive interval, in order, and every one of them holds that
    same pointer; no other matcher of the store is touched.  For
    [ip_set] the list behind the pointer is sorted. *)
Theorem constructed_set_layout :
  forall (V6 : netip.IPv6Parser) (D : domain.MixMatcherOps) (env : Env),
    (forall (G : string -> option ip_set.Matcher) (args : ip_set.Args)
            (st st' : State netlist.List) (d : ip_set.IPSet),
        ip_set.NewIPSet env G args st = (st', Ok d) ->
        exists (l : netlist.List) (ms : list ip_set.Matcher),
          heap st' = <[next st := l]> (heap st) /\
          netlist.sorted l = true /\
          ip_set.mg d =
            ((if (0 <? netlist.Len l)%nat then [ip_set.ListAt (next st)] else []) ++ ms)%list /\
          Forall2 (fun tag m => G tag = Some m) (ip_set.Sets args) ms /\
          spawned st' =
            (spawned st ++
             map (fun rf => (rf, next st)) (List.filter refreshed (ip_set.RemoteFiles args)))%list /\
          next st' = S (next st)) /\
    (forall (G : string -> option domain_set.Matcher) (args : domain_set.Args)
            (st st' : State domain.MixMatcher) (d : domain_set.DomainSet),
        domain_set.NewDomainSet env G args st = (st', Ok d) ->
        exists (m : domain.MixMatcher) (ms : list domain_set.Matcher),
          heap st' = <[next st := m]> (heap st) /\
          domain_set.mg d =
            ((if (0 <? domain.Len m)%nat then [domain_set.MixAt (next st)] else []) ++ ms)%list /\
          Forall2 (fun tag m' => G tag = Some m') (domain_set.Sets args) ms /\
          spawned st' =
            (spawned st ++
             map (fun rf => (rf, next st))
                 (List.filter refreshed (domain_set.RemoteFiles args)))%list /\
          next st' = S (next st)).
Proof.
  intros V6 D env. split.
  - intros G args st st' d H.
    destruct (NewIPSet_Ok_inv env G args st st' d H)
      as (w0 & w1 & l0 & l1 & sp & _ & Hrem & Hsets & ->).
    destruct (NewIPSet_sets_Ok G _ _ _ Hsets) as (ms & Hall & Hmg).
    exists (netlist.Sort l1), ms. cbn [heap spawned next].
    rewrite (NewIPSet_remotes_spawned env _ _ _ _ _ _ _ _ Hrem).
    repeat split; try reflexivity; assumption.
  - intros G args st st' d H.
    destruct (NewDomainSet_Ok_inv env G args st st' d H)
      as (w0 & w1 & m0 & m1 & sp & _ & Hrem & Hsets & ->).
    destruct (NewDomainSet_sets_Ok G _ _ _ Hsets) as (ms & Hall & Hmg).
    exists m1, ms. cbn [heap spawned next].
    rewrite (NewDomainSet_remotes_spawned env _ _ _ _ _ _ _ _ Hrem).
    repeat split; try reflexivity; assumption.
Qed.

Lemma constructed_set_layout_witness :
  let env := serving (fun _ => Downloaded "192.0.2.0/24") in
  let st := initial_state empty_world in
  let r := ip_set.NewIPSet (V6 := reject_ipv6) env (fun _ => None) inline_and_remote st in
  snd r = Ok {| ip_set.mg := [ip_set.ListAt 0] |} /\
  exists (l : netlist.List) (ms : list ip_set.Matcher),
    heap (fst r) = <[0%nat := l]> (heap st) /\
    netlist.sorted l = true /\
    [ip_set.ListAt 0] =
      ((if (0 <? netlist.Len l)%nat then [ip_set.ListAt 0] else []) ++ ms)%list /\
    Forall2 (fun (tag : string) (m : ip_set.Matcher) => @None ip_set.Matcher = Some m) [] ms /\
    spawned (fst r) = [(example_rf, 0%nat)] /\
    next (fst r) = 1%nat.
Proof.
  intros env st r.
  assert (H : ip_set.NewIPSet (V6 := reject_ipv6) env (fun _ => None) inline_and_remote st
              = (fst r, Ok {| ip_set.mg := [ip_set.ListAt 0] |})).
  { vm_compute. reflexivity. }
  split; [vm_compute; reflexivity|].
  exact (proj1 (constructed_set_layout reject_ipv6 exact_names env)
           (fun _ => None) inline_and_remote st (fst r) _ H).
Defined.

(** When the loads succeed and a referenced tag, the first such, names
    no provider of the wanted kind, the constructor returns an error
    whose text starts with the tag, and no set; the goroutines started
    for the remote files stay started.  This holds for [NewIPSet] and for
    [NewDomainSet]. *)
Theorem unknown_provider_fails_construction :
  forall (V6 : netip.IPv6Parser) (D : domain.MixMatcherOps) (env : Env)
         (pre post : list string) (tag : string) (w0 w1 : World)
         (sp : list (RemoteFile * loc)),
    (forall (G : string -> option ip_set.Matcher) (args : ip_set.Args)
            (st : State netlist.List) (l0 l1 : netlist.List),
        ip_set.LoadFromIPsAndFiles (ip_set.IPs args) (ip_set.Files args) netlist.NewList
          (world st) = (w0, l0, None) ->
        ip_set.NewIPSet_remotes env (ip_set.RemoteFiles args) (next st) l0 w0 (spawned st)
          = (w1, l1, sp, None) ->
        ip_set.Sets args = (pre ++ tag :: post)%list ->
        Forall (fun t => is_Some (G t)) pre ->
        G tag = None ->
        let r := ip_set.NewIPSet env G args st in
        let e := errors_New (tag ++ " is not an IPMatcherProvider") in
        snd r = Err e /\ String.prefix tag (Error e) = true /\ spawned (fst r) = sp) /\
    (forall (G : string -> option domain_set.Matcher) (args : domain_set.Args)
            (st : State domain.MixMatcher) (m0 m1 : domain.MixMatcher),
        domain_set.LoadExpsAndFiles (domain_set.Exps args) (domain_set.Files args)
          domain.NewDomainMixMatcher (world st) = (w0, m0, None) ->
        domain_set.NewDomainSet_remotes env (domain_set.RemoteFiles args) (next st) m0 w0
          (spawned st) = (w1, m1, sp, None) ->
        domain_set.Sets args = (pre ++ tag :: post)%list ->
        Forall (fun t => is_Some (G t)) pre ->
        G tag = None ->
        let r := domain_set.NewDomainSet env G args st in
        let e := errors_New (tag ++ " is not a DomainMatcherProvider") in
        snd r = Err e /\ String.prefix tag (Error e) = true /\ spawned (fst r) = sp).
Proof.
  intros V6 D env pre post tag w0 w1 sp. split.
  - intros G args st l0 l1 H0 H1 Hsets Hpre Htag r e. subst r e.
    unfold ip_set.NewIPSet. rewrite H0, H1, Hsets.
    rewrite (NewIPSet_sets_unknown G pre tag post _ Hpre Htag).
    cbn [fst snd spawned Error]. repeat split. apply prefix_append.
  - intros G args st m0 m1 H0 H1 Hsets Hpre Htag r e. subst r e.
    unfold domain_set.NewDomainSet. rewrite H0, H1, Hsets.
    rewrite (NewDomainSet_sets_unknown G pre tag post _ Hpre Htag).
    cbn [fst snd spawned Error]. repeat split. apply prefix_append.
Qed.

Lemma unknown_provider_fails_construction_witness :
  snd (ip_set.NewIPSet (V6 := reject_ipv6) (serving (fun _ => BadStatus "404 Not Found"))
         only_geoip with_unknown_set (initial_state empty_world))
  = Err (errors_New "missing is not an IPMatcherProvider").
Proof.
  refine (proj1 (proj1 (unknown_provider_fails_construction reject_ipv6 exact_names
                          (serving (fun _ => BadStatus "404 Not Found"))
                          ["geoip"] [] "missing" empty_world empty_world [])
                   only_geoip with_unknown_set (initial_state empty_world)
                   _ _ _ _ eq_refl _ eq_refl)).
  - vm_compute. reflexivity.
  - vm_compute. reflexivity.
  - constructor; [|constructor]. eexists. reflexivity.
Defined.

(** ** The sort invariant *)

Section Sorted.
Context {V6 : netip.IPv6Parser} (env : Env).

Lemma all_sorted_insert (h : gmap loc netlist.List) (l : loc) (x : netlist.List) :
  all_sorted h -> netlist.sorted x = true -> all_sorted (<[l := x]> h).
Proof.
  intros Hh Hx l' x' Hl'. apply lookup_insert_Some in Hl'.
  destruct Hl' as [[_ <-]|[_ Hl']]; [exact Hx|exact (Hh l' x' Hl')].
Qed.

Lemma tick_all_sorted (rf : RemoteFile) (l : loc) (st : State netlist.List) :
  all_sorted (heap st) -> all_sorted (heap (ip_set.updateRemoteFile_tick env rf l st)).
Proof.
  intros H. rewrite (ip_tick_unfold env rf l st).
  destruct (snd (downloadFile env (URL rf) (Path rf) (world st))); [exact H|].
  destruct (snd (ip_set.LoadFromFile _ _ _)); [exact H|].
  cbn [heap]. apply all_sorted_insert; [exact H|reflexivity].
Qed.

Lemma run_ticks_all_sorted (ks : list nat) :
  forall st : State netlist.List,
    all_sorted (heap st) -> all_sorted (heap (ip_set.run_ticks env ks st)).
Proof.
  induction ks as [|k ks IH]; intros st H; cbn [ip_set.run_ticks]; [exact H|].
  destruct (nth_error (spawned st) k) as [[rf l]|]; [|exact (IH st H)].
  apply IH, tick_all_sorted, H.
Qed.

End Sorted.

(** Starting from a store of sorted lists, after a successful [NewIPSet]
    and after any number of ticks of the started goroutines, in any
    order, every list of the store is sorted: the constructor sorts
    before it builds the group and a tick sorts before it installs. *)
Theorem reachable_lists_stay_sorted :
  forall (V6 : netip.IPv6Parser) (env : Env) (G : string -> option ip_set.Matcher)
         (args : ip_set.Args) (st st' : State netlist.List) (d : ip_set.IPSet)
         (ks : list nat),
    all_sorted (heap st) ->
    ip_set.NewIPSet env G args st = (st', Ok d) ->
    all_sorted (heap (ip_set.run_ticks env ks st')).
Proof.
  intros V6 env G args st st' d ks Hst H.
  apply run_ticks_all_sorted.
  destruct (NewIPSet_Ok_inv env G args st st' d H)
    as (w0 & w1 & l0 & l1 & sp & _ & _ & _ & ->).
  cbn [heap]. apply all_sorted_insert; [exact Hst|reflexivity].
Qed.

Lemma reachable_lists_stay_sorted_witness :
  let r := ip_set.NewIPSet (V6 := reject_ipv6) changing_server (fun _ => None) remote_only
             (initial_state empty_world) in
  all_sorted (heap (ip_set.run_ticks (V6 := reject_ipv6) changing_server [0%nat; 0%nat] (fst r))).
Proof.
  intros r.
  apply (reachable_lists_stay_sorted reject_ipv6 changing_server (fun _ => None) remote_only
           (initial_state empty_world) (fst r) {| ip_set.mg := [ip_set.ListAt 0] |}).
  - intros l x Hl. unfold initial_state in Hl. cbn [heap] in Hl.
    rewrite lookup_empty in Hl. discriminate.
  - vm_compute. reflexivity.
Defined.

(** ** Refreshing twice from the same content *)

Lemma domain_tick_installs_only_the_remote_file (D : domain.MixMatcherOps) (env : Env)
    (rf : RemoteFile) (l : loc) (st : State domain.MixMatcher) (body : string) :
  remote env (requests (world st)) (URL rf) (Path rf) = Downloaded body ->
  (0 <? String.length (Path rf))%nat = true ->
  snd (domain.LoadFromTextReader domain.NewDomainMixMatcher body) = None ->
  heap (domain_set.updateRemoteFile_tick env rf l st) =
  <[l := fst (domain.LoadFromTextReader domain.NewDomainMixMatcher body)]> (heap st).
Proof.
  intros Hrem Hlen Hok.
  rewrite (domain_tick_unfold env rf l st).
  rewrite (downloadFile_Downloaded env _ _ body _ Hrem). cbn [fst snd].
  set (w1 := {| files := _; requests := _; trace := _ |}).
  assert (Hf : lookup_file w1 (Path rf) = Some (Regular body)).
  { unfold lookup_file. subst w1. cbn [files]. rewrite (nonempty_path _ Hlen).
    apply lookup_insert_eq. }
  rewrite (domain_LoadFile_regular (Path rf) body domain.NewDomainMixMatcher w1 Hf).
  cbn [fst snd]. rewrite Hok. reflexivity.
Qed.

(** A tick that downloads and loads the content that the tick before it
    downloaded and loaded installs an equal matcher: the store after the
    second tick is the store after the first.  This holds for [ip_set]
    and for [domain_set]. *)
Theorem refresh_tick_idempotent :
  forall (V6 : netip.IPv6Parser) (D : domain.MixMatcherOps) (env : Env) (rf : RemoteFile)
         (l : loc) (body : string),
    (0 <? String.length (Path rf))%nat = true ->
    (forall (st : State netlist.List),
        remote env (requests (world st)) (URL rf) (Path rf) = Downloaded body ->
        remote env (S (requests (world st))) (URL rf) (Path rf) = Downloaded body ->
        snd (netlist.LoadFromReader ip_set.parseNetipPrefix netlist.NewList body) = None ->
        let st1 := ip_set.updateRemoteFile_tick env rf l st in
        heap (ip_set.updateRemoteFile_tick env rf l st1) = heap st1) /\
    (forall (st : State domain.MixMatcher),
        remote env (requests (world st)) (URL rf) (Path rf) = Downloaded body ->
        remote env (S (requests (world st))) (URL rf) (Path rf) = Downloaded body ->
        snd (domain.LoadFromTextReader domain.NewDomainMixMatcher body) = None ->
        let st1 := domain_set.updateRemoteFile_tick env rf l st in
        heap (domain_set.updateRemoteFile_tick env rf l st1) = heap st1).
Proof.
  intros V6 D env rf l body Hlen. split.
  - intros st H1 H2 Hok st1.
    destruct (ip_tick_frame env rf l st) as (Hr & _). fold st1 in Hr.
    rewrite <- Hr in H2.
    destruct (ip_tick_installs_only_the_remote_file V6 env rf l st1 body H2 Hlen Hok)
      as [-> _].
    subst st1.
    destruct (ip_tick_installs_only_the_remote_file V6 env rf l st body H1 Hlen Hok)
      as [-> _].
    apply insert_insert_eq.
  - intros st H1 H2 Hok st1.
    destruct (domain_tick_frame env rf l st) as (Hr & _). fold st1 in Hr.
    rewrite <- Hr in H2.
    rewrite (domain_tick_installs_only_the_remote_file D env rf l st1 body H2 Hlen Hok).
    subst st1.
    rewrite (domain_tick_installs_only_the_remote_file D env rf l st body H1 Hlen Hok).
    apply insert_insert_eq.
Qed.

Lemma refresh_tick_idempotent_witness :
  let env := serving (fun _ => Downloaded "192.0.2.0/24") in
  let st1 := ip_set.updateRemoteFile_tick (V6 := reject_ipv6) env example_rf 0 live_state in
  heap (ip_set.updateRemoteFile_tick (V6 := reject_ipv6) env example_rf 0 st1) = heap st1.
Proof.
  intros env st1.
  apply (proj1 (refresh_tick_idempotent reject_ipv6 exact_names env example_rf 0
                  "192.0.2.0/24" eq_refl) live_state).
  - reflexivity.
  - reflexivity.
  - vm_compute. reflexivity.
Defined.

(** ** A list that is empty at construction *)

(** When the list that [NewIPSet] loaded is empty and no provider is
    referenced, the set that it returns has an empty group: it matches no
    address in any later state, whatever the started goroutines install
    behind the pointer. *)
Theorem empty_local_list_is_never_matched :
  forall (V6 : netip.IPv6Parser) (env : Env) (G : string -> option ip_set.Matcher)
         (args : ip_set.Args) (st st' : State netlist.List) (d : ip_set.IPSet)
         (l : netlist.List),
    ip_set.NewIPSet env G args st = (st', Ok d) ->
    heap st' !! next st = Some l ->
    netlist.Len l = 0%nat ->
    ip_set.Sets args = [] ->
    ip_set.mg d = [] /\
    forall (st'' : State netlist.List) (addr : netip.Addr),
      ip_set.IPSet_Match st'' d addr = false.
Proof.
  intros V6 env G args st st' d l H Hl Hlen Hsets.
  destruct (proj1 (constructed_set_layout V6 exact_names env) G args st st' d H)
    as (l' & ms & Hheap & _ & Hmg & Hall & _).
  rewrite Hheap, lookup_insert_eq in Hl. injection Hl as ->.
  rewrite Hlen in Hmg. rewrite Hsets in Hall. inversion Hall; subst.
  cbn in Hmg. split; [exact Hmg|].
  intros st'' addr. unfold ip_set.IPSet_Match. rewrite Hmg. reflexivity.
Qed.

Lemma empty_local_list_is_never_matched_witness :
  let r := ip_set.NewIPSet (V6 := reject_ipv6) late_server (fun _ => None) remote_only
             (initial_state empty_world) in
  let st2 := ip_set.updateRemoteFile_tick (V6 := reject_ipv6) late_server example_rf 0 (fst r) in
  snd r = Ok {| ip_set.mg := [] |} /\
  spawned (fst r) = [(example_rf, 0%nat)] /\
  ip_set.Matcher_Match (heap st2) (ip_set.ListAt 0) (addr4 192 0 2 7) = true /\
  ip_set.IPSet_Match st2 {| ip_set.mg := [] |} (addr4 192 0 2 7) = false.
Proof.
  intros r st2.
  assert (H : ip_set.NewIPSet (V6 := reject_ipv6) late_server (fun _ => None) remote_only
                (initial_state empty_world) = (fst r, Ok {| ip_set.mg := [] |})).
  { vm_compute. reflexivity. }
  split; [vm_compute; reflexivity|]. split; [vm_compute; reflexivity|].
  split; [vm_compute; reflexivity|].
  refine (proj2 (empty_local_list_is_never_matched reject_ipv6 late_server (fun _ => None)
                   remote_only (initial_state empty_world) (fst r) _
                   (netlist.Sort netlist.NewList) H _ eq_refl eq_refl) st2 _).
  vm_compute. reflexivity.
Defined.

(** ** A remote source at its first start *)

Lemma lookup_file_files (w w' : World) (path : string) :
  files w' = files w -> lookup_file w' path = lookup_file w path.
Proof. intros H. unfold lookup_file. rewrite H. reflexivity. Qed.

Lemma MkdirAll_phase (env : Env) (path : string) (w : World) :
  (filepath_Dir env path = "" \/ MkdirAll env (filepath_Dir env path) = None) ->
  let dir := filepath_Dir env path in
  exists w1,
    (if negb (String.eqb dir "") then os_MkdirAll env dir w else (w, None)) = (w1, None) /\
    files w1 = files w /\ requests w1 = requests w /\
    trace w1 = (trace w ++ if String.eqb dir "" then [] else [EvMkdirAll dir])%list.
Proof.
  intros Hmk dir. subst dir. unfold os_MkdirAll.
  destruct (String.eqb (filepath_Dir env path) "") eqn:Hd; cbn [negb].
  - exists w. rewrite app_nil_r. auto.
  - destruct Hmk as [Hmk|Hmk]; [rewrite Hmk in Hd; discriminate|].
    rewrite Hmk. eexists. split; [reflexivity|]. auto.
Qed.

Lemma downloadFile_failure_calls (env : Env) (url path : string) (w : World) :
  (forall body, remote env (requests w) url path <> Downloaded body) ->
  exists w' err rest,
    downloadFile env url path w = (w', Some err) /\
    trace w' = (trace w ++ EvGet url :: rest)%list /\ existsb is_read rest = false.
Proof.
  intros H. unfold downloadFile.
  destruct (remote env (requests w) url path) as [e|s|e|wr e|body].
  - eexists _, _, []. repeat split.
  - eexists _, _, []. repeat split.
  - eexists _, _, [EvCreate path]. split; [reflexivity|]. split; [|reflexivity].
    cbn [log trace]. rewrite <- app_assoc. reflexivity.
  - eexists _, _, [EvCreate path]. split; [reflexivity|]. split; [|reflexivity].
    cbn [write_file log trace]. rewrite <- app_assoc. reflexivity.
  - exfalso. exact (H body eq_refl).
Qed.

Section FirstStart.
Context {V6 : netip.IPv6Parser} {D : domain.MixMatcherOps} (env : Env).

Lemma ip_LoadFromRemoteFile_fails_before_load (rf : RemoteFile) (l : netlist.List)
    (w : World) :
  fails_before_load env rf w ->
  exists w' err calls,
    ip_set.LoadFromRemoteFile env rf l w = (w', l, Some err) /\
    trace w' = (trace w ++ calls)%list /\ existsb is_read calls = false.
Proof.
  unfold fails_before_load, ip_set.LoadFromRemoteFile. cbv zeta.
  intros [[Hd Hmk]|(Hmk & Hfile & Hrem)].
  - rewrite Hd. cbn [negb]. unfold os_MkdirAll.
    destruct (MkdirAll env (filepath_Dir env (Path rf))) as [e0|]; [|contradiction].
    eexists _, _, [EvMkdirAll _]. repeat split.
  - destruct (MkdirAll_phase env (Path rf) w Hmk) as (w1 & Hpre & Hf1 & Hr1 & Ht1).
    cbv zeta in Hpre, Ht1. rewrite Hpre.
    unfold os_Stat_IsNotExist. rewrite (lookup_file_files w w1 _ Hf1), Hfile.
    destruct (downloadFile_failure_calls env (URL rf) (Path rf) (log (EvStat (Path rf)) w1))
      as (w' & err & rest & Hdl & Ht & Hno).
    { cbn [log requests]. rewrite Hr1. exact Hrem. }
    rewrite Hdl.
    exists w', err,
      ((if String.eqb (filepath_Dir env (Path rf)) "" then []
        else [EvMkdirAll (filepath_Dir env (Path rf))]) ++
       EvStat (Path rf) :: EvGet (URL rf) :: rest)%list.
    split; [reflexivity|]. split.
    + rewrite Ht. cbn [log trace]. rewrite Ht1, <- !app_assoc. reflexivity.
    + rewrite existsb_app. cbn [existsb is_read orb]. rewrite Hno.
      destruct (String.eqb (filepath_Dir env (Path rf)) ""); reflexivity.
Qed.

Lemma domain_LoadRemoteFile_fails_before_load (rf : RemoteFile) (m : domain.MixMatcher)
    (w : World) :
  fails_before_load env rf w ->
  exists w' err calls,
    domain_set.LoadRemoteFile env rf m w = (w', m, Some err) /\
    trace w' = (trace w ++ calls)%list /\ existsb is_read calls = false.
Proof.
  unfold fails_before_load, domain_set.LoadRemoteFile. cbv zeta.
  intros [[Hd Hmk]|(Hmk & Hfile & Hrem)].
  - rewrite Hd. cbn [negb]. unfold os_MkdirAll.
    destruct (MkdirAll env (filepath_Dir env (Path rf))) as [e0|]; [|contradiction].
    eexists _, _, [EvMkdirAll _]. repeat split.
  - destruct (MkdirAll_phase env (Path rf) w Hmk) as (w1 & Hpre & Hf1 & Hr1 & Ht1).
    cbv zeta in Hpre, Ht1. rewrite Hpre.
    unfold os_Stat_IsNotExist. rewrite (lookup_file_files w w1 _ Hf1), Hfile.
    destruct (downloadFile_failure_calls env (URL rf) (Path rf) (log (EvStat (Path rf)) w1))
      as (w' & err & rest & Hdl & Ht & Hno).
    { cbn [log requests]. rewrite Hr1. exact Hrem. }
    rewrite Hdl.
    exists w', err,
      ((if String.eqb (filepath_Dir env (Path rf)) "" then []
        else [EvMkdirAll (filepath_Dir env (Path rf))]) ++
       EvStat (Path rf) :: EvGet (URL rf) :: rest)%list.
    split; [reflexivity|]. split.
    + rewrite Ht. cbn [log trace]. rewrite Ht1, <- !app_assoc. reflexivity.
    + rewrite existsb_app. cbn [existsb is_read orb]. rewrite Hno.
      destruct (String.eqb (filepath_Dir env (Path rf)) ""); reflexivity.
Qed.

End FirstStart.

(** When the directory of the local file cannot be made, or the local
    file is missing and its download fails, the loader of a remote
    source returns an error, has read no file, and hands the matcher
    back as it got it.  This holds for [LoadFromRemoteFile] and for
    [LoadRemoteFile]. *)
Theorem provisioning_failure_leaves_matcher_alone :
  forall (V6 : netip.IPv6Parser) (D : domain.MixMatcherOps) (env : Env) (rf : RemoteFile)
         (w : World),
    fails_before_load env rf w ->
    (forall l : netlist.List,
        exists w' err calls,
          ip_set.LoadFromRemoteFile env rf l w = (w', l, Some err) /\
          trace w' = (trace w ++ calls)%list /\ existsb is_read calls = false) /\
    (forall m : domain.MixMatcher,
        exists w' err calls,
          domain_set.LoadRemoteFile env rf m w = (w', m, Some err) /\
          trace w' = (trace w ++ calls)%list /\ existsb is_read calls = false).
Proof.
  intros V6 D env rf w H. split.
  - intros l. exact (ip_LoadFromRemoteFile_fails_before_load env rf l w H).
  - intros m. exact (domain_LoadRemoteFile_fails_before_load env rf m w H).
Qed.

Lemma provisioning_failure_leaves_matcher_alone_witness :
  let env := serving (fun _ => BadStatus "404 Not Found") in
  let l := netlist.Append (netip.PrefixFrom (addr4 10 0 0 1) 32) netlist.NewList in
  exists w' err calls,
    ip_set.LoadFromRemoteFile (V6 := reject_ipv6) env example_rf l empty_world
      = (w', l, Some err) /\
    trace w' = (trace empty_world ++ calls)%list /\ existsb is_read calls = false.
Proof.
  intros env l.
  apply (proj1 (provisioning_failure_leaves_matcher_alone reject_ipv6 exact_names env
                  example_rf empty_world
                  (or_intror (conj (or_intror eq_refl)
                                (conj eq_refl (fun body (H : BadStatus "404 Not Found" = Downloaded body) =>
                                                 eq_ind (BadStatus "404 Not Found")
                                                   (fun d => match d with BadStatus _ => True | _ => False end)
                                                   I _ H)))))).
Defined.

Section FirstStartSuccess.
Context {V6 : netip.IPv6Parser} {D : domain.MixMatcherOps} (env : Env).

Lemma ip_LoadFromRemoteFile_missing (rf : RemoteFile) (l l1 : netlist.List) (w : World)
    (b0 b1 : string) :
  lookup_file w (Path rf) = None ->
  (0 <? String.length (Path rf))%nat = true ->
  (filepath_Dir env (Path rf) = "" \/ MkdirAll env (filepath_Dir env (Path rf)) = None) ->
  remote env (requests w) (URL rf) (Path rf) = Downloaded b0 ->
  remote env (S (requests w)) (URL rf) (Path rf) = Downloaded b1 ->
  netlist.LoadFromReader ip_set.parseNetipPrefix l b0 = (l1, None) ->
  let ld := netlist.LoadFromReader ip_set.parseNetipPrefix l1 b1 in
  let dir := filepath_Dir env (Path rf) in
  exists w',
    ip_set.LoadFromRemoteFile env rf l w = (w', fst ld, snd ld) /\
    trace w' = (trace w ++ (if String.eqb dir "" then [] else [EvMkdirAll dir]) ++
                [EvStat (Path rf); EvGet (URL rf); EvCreate (Path rf); EvReadFile (Path rf);
                 EvGet (URL rf); EvCreate (Path rf); EvReadFile (Path rf)])%list /\
    requests w' = (requests w + 2)%nat /\
    lookup_file w' (Path rf) = Some (Regular b1) /\
    netlist.e (fst ld) =
      (netlist.e l ++ registered ip_set.parseNetipPrefix (netlist.lines b0) ++
       registered ip_set.parseNetipPrefix (netlist.lines b1))%list.
Proof.
  intros Hfile Hlen Hmk H0 H1 Hload ld dir. subst ld dir.
  unfold ip_set.LoadFromRemoteFile. cbv zeta.
  destruct (MkdirAll_phase env (Path rf) w Hmk) as (w1 & Hpre & Hf1 & Hr1 & Ht1).
  cbv zeta in Hpre, Ht1. rewrite Hpre.
  unfold os_Stat_IsNotExist. rewrite (lookup_file_files w w1 _ Hf1), Hfile.
  set (w2 := log (EvStat (Path rf)) w1).
  assert (H0' : remote env (requests w2) (URL rf) (Path rf) = Downloaded b0).
  { subst w2. cbn [log requests]. rewrite Hr1. exact H0. }
  rewrite (downloadFile_Downloaded env _ _ b0 w2 H0').
  set (w3 := {| files := _; requests := _; trace := _ |}).
  assert (Hf3 : lookup_file w3 (Path rf) = Some (Regular b0)).
  { unfold lookup_file. subst w3. cbn [files]. rewrite (nonempty_path _ Hlen).
    apply lookup_insert_eq. }
  rewrite (ip_LoadFromFile_regular (Path rf) b0 l w3 Hf3), Hload. cbn [fst snd].
  set (w4 := log (EvReadFile (Path rf)) w3).
  assert (H1' : remote env (requests w4) (URL rf) (Path rf) = Downloaded b1).
  { subst w4 w3 w2. cbn [log requests]. rewrite Hr1. exact H1. }
  rewrite (downloadFile_Downloaded env _ _ b1 w4 H1').
  set (w5 := {| files := _; requests := _; trace := _ |}).
  assert (Hf5 : lookup_file w5 (Path rf) = Some (Regular b1)).
  { unfold lookup_file. subst w5. cbn [files]. rewrite (nonempty_path _ Hlen).
    apply lookup_insert_eq. }
  rewrite (ip_LoadFromFile_regular (Path rf) b1 l1 w5 Hf5).
  eexists. split; [reflexivity|]. split; [|split; [|split]].
  - subst w5 w4 w3 w2. cbn [log trace]. rewrite Ht1, <- !app_assoc. reflexivity.
  - subst w5 w4 w3 w2. cbn [log requests]. rewrite Hr1. lia.
  - rewrite lookup_file_log. exact Hf5.
  - unfold netlist.LoadFromReader. rewrite LoadFromReader_loop_appends.
    pose proof (LoadFromReader_loop_appends ip_set.parseNetipPrefix (netlist.lines b0) 0 l)
      as He.
    unfold netlist.LoadFromReader in Hload. rewrite Hload in He. cbn [fst] in He.
    rewrite He, <- app_assoc. reflexivity.
Qed.

Lemma domain_LoadRemoteFile_missing (rf : RemoteFile) (m m1 : domain.MixMatcher) (w : World)
    (b0 b1 : string) :
  lookup_file w (Path rf) = None ->
  (0 <? String.length (Path rf))%nat = true ->
  (filepath_Dir env (Path rf) = "" \/ MkdirAll env (filepath_Dir env (Path rf)) = None) ->
  remote env (requests w) (URL rf) (Path rf) = Downloaded b0 ->
  remote env (S (requests w)) (URL rf) (Path rf) = Downloaded b1 ->
  domain.LoadFromTextReader m b0 = (m1, None) ->
  let ld := domain.LoadFromTextReader m1 b1 in
  let dir := filepath_Dir env (Path rf) in
  exists w',
    domain_set.LoadRemoteFile env rf m w = (w', fst ld, snd ld) /\
    trace w' = (trace w ++ (if String.eqb dir "" then [] else [EvMkdirAll dir]) ++
                [EvStat (Path rf); EvGet (URL rf); EvCreate (Path rf); EvReadFile (Path rf);
                 EvGet (URL rf); EvCreate (Path rf); EvReadFile (Path rf)])%list /\
    requests w' = (requests w + 2)%nat /\
    lookup_file w' (Path rf) = Some (Regular b1).
Proof.
  intros Hfile Hlen Hmk H0 H1 Hload ld dir. subst ld dir.
  unfold domain_set.LoadRemoteFile. cbv zeta.
  destruct (MkdirAll_phase env (Path rf) w Hmk) as (w1 & Hpre & Hf1 & Hr1 & Ht1).
  cbv zeta in Hpre, Ht1. rewrite Hpre.
  unfold os_Stat_IsNotExist. rewrite (lookup_file_files w w1 _ Hf1), Hfile.
  set (w2 := log (EvStat (Path rf)) w1).
  assert (H0' : remote env (requests w2) (URL rf) (Path rf) = Downloaded b0).
  { subst w2. cbn [log requests]. rewrite Hr1. exact H0. }
  rewrite (downloadFile_Downloaded env _ _ b0 w2 H0').
  set (w3 := {| files := _; requests := _; trace := _ |}).
  assert (Hf3 : lookup_file w3 (Path rf) = Some (Regular b0)).
  { unfold lookup_file. subst w3. cbn [files]. rewrite (nonempty_path _ Hlen).
    apply lookup_insert_eq. }
  rewrite (domain_LoadFile_regular (Path rf) b0 m w3 Hf3), Hload. cbn [fst snd].
  set (w4 := log (EvReadFile (Path rf)) w3).
  assert (H1' : remote env (requests w4) (URL rf) (Path rf) = Downloaded b1).
  { subst w4 w3 w2. cbn [log requests]. rewrite Hr1. exact H1. }
  rewrite (downloadFile_Downloaded env _ _ b1 w4 H1').
  set (w5 := {| files := _; requests := _; trace := _ |}).
  assert (Hf5 : lookup_file w5 (Path rf) = Some (Regular b1)).
  { unfold lookup_file. subst w5. cbn [files]. rewrite (nonempty_path _ Hlen).
    apply lookup_insert_eq. }
  rewrite (domain_LoadFile_regular (Path rf) b1 m1 w5 Hf5).
  eexists. split; [reflexivity|]. split; [|split].
  - subst w5 w4 w3 w2. cbn [log trace]. rewrite Ht1, <- !app_assoc. reflexivity.
  - subst w5 w4 w3 w2. cbn [log requests]. rewrite Hr1. lia.
  - rewrite lookup_file_log. exact Hf5.
Qed.

End FirstStartSuccess.

(** At the first start of a remote source, its local file missing, the
    loader downloads the file, loads it, downloads it again and loads it
    again: two requests, and the rules of both loads in the matcher (for
    the IP list the entries of the first body and then those of the
    second, behind what the list held).  This holds for
    [LoadFromRemoteFile] and for [LoadRemoteFile]. *)
Theorem first_start_downloads_and_loads_twice :
  forall (V6 : netip.IPv6Parser) (D : domain.MixMatcherOps) (env : Env) (rf : RemoteFile)
         (w : World) (b0 b1 : string),
    lookup_file w (Path rf) = None ->
    (0 <? String.length (Path rf))%nat = true ->
    (filepath_Dir env (Path rf) = "" \/ MkdirAll env (filepath_Dir env (Path rf)) = None) ->
    remote env (requests w) (URL rf) (Path rf) = Downloaded b0 ->
    remote env (S (requests w)) (URL rf) (Path rf) = Downloaded b1 ->
    let dir := filepath_Dir env (Path rf) in
    let calls :=
      ((if String.eqb dir "" then [] else [EvMkdirAll dir]) ++
       [EvStat (Path rf); EvGet (URL rf); EvCreate (Path rf); EvReadFile (Path rf);
        EvGet (URL rf); EvCreate (Path rf); EvReadFile (Path rf)])%list in
    (forall (l l1 : netlist.List),
        netlist.LoadFromReader ip_set.parseNetipPrefix l b0 = (l1, None) ->
        let ld := netlist.LoadFromReader ip_set.parseNetipPrefix l1 b1 in
        exists w',
          ip_set.LoadFromRemoteFile env rf l w = (w', fst ld, snd ld) /\
          trace w' = (trace w ++ calls)%list /\
          requests w' = (requests w + 2)%nat /\
          lookup_file w' (Path rf) = Some (Regular b1) /\
          netlist.e (fst ld) =
            (netlist.e l ++ registered ip_set.parseNetipPrefix (netlist.lines b0) ++
             registered ip_set.parseNetipPrefix (netlist.lines b1))%list) /\
    (forall (m m1 : domain.MixMatcher),
        domain.LoadFromTextReader m b0 = (m1, None) ->
        let ld := domain.LoadFromTextReader m1 b1 in
        exists w',
          domain_set.LoadRemoteFile env rf m w = (w', fst ld, snd ld) /\
          trace w' = (trace w ++ calls)%list /\
          requests w' = (requests w + 2)%nat /\
          lookup_file w' (Path rf) = Some (Regular b1)).
Proof.
  intros V6 D env rf w b0 b1 Hfile Hlen Hmk H0 H1 dir calls. split.
  - intros l l1 Hload.
    exact (ip_LoadFromRemoteFile_missing env rf l l1 w b0 b1 Hfile Hlen Hmk H0 H1 Hload).
  - intros m m1 Hload.
    exact (domain_LoadRemoteFile_missing env rf m m1 w b0 b1 Hfile Hlen Hmk H0 H1 Hload).
Qed.

Lemma first_start_downloads_and_loads_twice_witness :
  exists w',
    ip_set.LoadFromRemoteFile (V6 := reject_ipv6) changing_server example_rf netlist.NewList
      empty_world =
    (w', {| netlist.e := [netip.PrefixFrom (addr4 198 51 100 0) 24;
                          netip.PrefixFrom (addr4 198 51 100 0) 24];
            netlist.sorted := false |}, None) /\
    requests w' = 2%nat /\
    lookup_file w' (Path example_rf) = Some (Regular "198.51.100.0/24").
Proof.
  destruct (proj1 (first_start_downloads_and_loads_twice reject_ipv6 exact_names
                     changing_server example_rf empty_world
                     "198.51.100.0/24" "198.51.100.0/24"
                     eq_refl eq_refl (or_intror eq_refl) eq_refl eq_refl)
              netlist.NewList
              (netlist.Append (netip.PrefixFrom (addr4 198 51 100 0) 24) netlist.NewList)
              eq_refl) as (w' & Hrun & _ & Hreq & Hfile & _).
  exists w'. split; [exact Hrun|]. split; [exact Hreq|exact Hfile].
Defined.
